(** * Verification of the transformation-job orchestration, the CAWS
      authentication provider and the environment settings wizard

    The development is a shallow embedding of

    - [src/caws/auth.ts], second part (the code-transformation helpers:
      [throwIfCancelled], [getSha256], [uploadArtifactToS3], [uploadPayload],
      [getFilesRecursively], [getProjectDependencies], [zipCode],
      [pollTransformationJob]);
    - [src/caws/auth.ts], first part ([CawsAuthStorage] and
      [CawsAuthenticationProvider]);
    - [src/mde/wizards/environmentSettings.ts]
      ([createMenuPrompt], [EnvironmentSettingsWizard.run]).

    Host calls (the remote API, the file system, the clock, the user's
    choices in the pickers) are inputs of the model: each function takes the
    answers the host gives and returns, next to its result, the list of host
    calls it made. *)

From stdpp Require Import gmap strings list fin_maps.
From Stdlib Require Import ZArith NArith Strings.Byte DecimalN DecimalString Lia.

(** ** Values shared by the transformation helpers *)

(** [Array.prototype.includes] on an array of strings. *)
Definition includes (xs : list string) (x : string) : bool :=
  existsb (String.eqb x) xs.

(** [n.toString()] and [`${n}`] of a non-negative integer. *)
Definition toString (n : N) : string := NilEmpty.string_of_uint (N.to_uint n).

(** The members of [CodeWhispererConstants] the embedded functions read.  The
    module itself ([../models/constants]) is not among the sources, so its
    values are fields of a record the functions take as an argument.  The two
    durations are numbers of seconds; they, and the sums the loop makes of
    them, are modelled as integers. *)
Record CodeWhispererConstants := {
  failureStates : list string;
  transformationJobPollingIntervalSeconds : Z;
  transformationJobTimeoutSeconds : Z;
  dependencyFolderName : string;
  contentChecksumType : string;
  uploadIntent : string
}.

(** ** [pollTransformationJob] *)

Module Poll.

(** What [codeModernizerGetCodeTransformation] answers: the awaited promise
    rejects, or it resolves to a job whose status (declared [string] by the
    [!] assertion of the source) is read. *)
Inductive reply :=
| Rejected (reason : string)
| JobStatus (status : string).

(** What the host shows to one iteration of the loop: the value of
    [transformByQState.isCancelled()] when the iteration starts, and the
    answer to the status query of that iteration. *)
Record observation := {
  cancelled : bool;
  answer : reply
}.

(** The host during one call: the observation of every iteration. *)
Definition world := nat -> observation.

(** The host calls the loop makes, in order. *)
Inductive event :=
| EvIsCancelled (b : bool)
| EvGetCodeTransformation (jobId : string) (r : reply)
| EvSleep (ms : Z).

Inductive error :=
| TransformByQStoppedError
| Error (message : string)
| HostError (reason : string).

(** How a call ends.  [OutOfFuel] is the model's only: the loop of the source
    is [while (true)], the model unrolls it [fuel] times. *)
Inductive outcome :=
| Returned (status : string)
| Threw (e : error)
| OutOfFuel.

Record run := {
  events : list event;
  result : outcome
}.

Definition emit (es : list event) (r : run) : run :=
  {| events := es ++ events r; result := result r |}.

Definition jobFailed : error := Error "Job failed, not going to retrieve plan".
Definition timedOut : error := Error "Transform by Q timed out".

(** [throwIfCancelled], given what [transformByQState.isCancelled()]
    answers: the error it throws, if any. *)
Definition throwIfCancelled (isCancelled : bool) : option error :=
  if isCancelled then Some TransformByQStoppedError else None.

(** The body of [while (true)], iteration [i], with the local [timer]. *)
Fixpoint pollLoop (C : CodeWhispererConstants) (w : world) (jobId : string)
    (validStates : list string) (fuel : nat) (i : nat) (timer : Z) : run :=
  match fuel with
  | O => {| events := []; result := OutOfFuel |}
  | S fuel' =>
    let check := EvIsCancelled (cancelled (w i)) in
    match throwIfCancelled (cancelled (w i)) with
    | Some stopped => {| events := [check]; result := Threw stopped |}
    | None =>
      let query := EvGetCodeTransformation jobId (answer (w i)) in
      match answer (w i) with
      | Rejected reason =>
        {| events := [check; query]; result := Threw (HostError reason) |}
      | JobStatus status =>
        if includes validStates status then
          (* break, then return status *)
          {| events := [check; query]; result := Returned status |}
        else if includes (failureStates C) status then
          {| events := [check; query]; result := Threw jobFailed |}
        else
          let sleep := EvSleep (transformationJobPollingIntervalSeconds C * 1000) in
          let timer' := (timer + transformationJobPollingIntervalSeconds C)%Z in
          if (transformationJobTimeoutSeconds C <? timer')%Z then
            {| events := [check; query; sleep]; result := Threw timedOut |}
          else
            emit [check; query; sleep]
                 (pollLoop C w jobId validStates fuel' (S i) timer')
      end
    end
  end.

Definition pollTransformationJob (C : CodeWhispererConstants) (w : world)
    (fuel : nat) (jobId : string) (validStates : list string) : run :=
  pollLoop C w jobId validStates fuel 0 0%Z.

(** A status that is neither valid nor a failure: the loop goes on. *)
Definition pending (C : CodeWhispererConstants) (validStates : list string)
    (status : string) : Prop :=
  includes validStates status = false /\ includes (failureStates C) status = false.

(** Counting the host calls of a run. *)
Definition isQuery (e : event) : bool :=
  match e with EvGetCodeTransformation _ _ => true | _ => false end.

Definition isSleep (e : event) : bool :=
  match e with EvSleep _ => true | _ => false end.

Fixpoint countEvents (p : event -> bool) (es : list event) : nat :=
  match es with
  | [] => 0
  | e :: es' => (if p e then 1 else 0) + countEvents p es'
  end.

Definition queries (r : run) : nat := countEvents isQuery (events r).

(** Iteration [j] goes on to iteration [j + 1]: its check answers "not
    cancelled", its query answers a pending status, and the local [timer]
    after its sleep, [(j + 1) * interval], does not exceed the time-out. *)
Definition goesOn (C : CodeWhispererConstants) (w : world)
    (validStates : list string) (j : nat) : Prop :=
  cancelled (w j) = false /\
  (exists status, answer (w j) = JobStatus status /\ pending C validStates status) /\
  (Z.of_nat (S j) * transformationJobPollingIntervalSeconds C <=
     transformationJobTimeoutSeconds C)%Z.

(** The loop gets as far as iteration [n]: every iteration before goes on. *)
Definition reaches (C : CodeWhispererConstants) (w : world)
    (validStates : list string) (n : nat) : Prop :=
  forall j, j < n -> goesOn C w validStates j.

End Poll.

(** ** [getSha256], [uploadArtifactToS3], [uploadPayload] *)

Definition bytes := list Byte.byte.

Module Upload.

(** The files [fs.readFileSync] can read, by name. *)
Abbreviation fileSystem := (gmap string bytes).

Record CreateUploadUrlResponse := {
  uploadId : string;
  uploadUrl : string;
  kmsKeyArn : option string
}.

Record CreateUploadUrlRequest := {
  contentChecksum : string;
  reqContentChecksumType : string;
  reqUploadIntent : string
}.

(** The host calls of an upload, in order. *)
Inductive event :=
| EvCreateUploadUrl (req : CreateUploadUrlRequest)
| EvFetch (method url : string) (body : bytes) (headers : gmap string string).

Inductive error :=
| ReadError (fileName : string)
| CreateUploadUrlError
| FetchError.

(** What the host answers during one call of [uploadPayload]: the answer of
    [createUploadUrl] ([None]: the promise rejects), the files as they are
    when that promise has settled, and whether the PUT request settles. *)
Record host := {
  createUploadUrl : option CreateUploadUrlResponse;
  filesAfterCreateUploadUrl : fileSystem;
  fetchSettles : bool
}.

Section WithDigest.

(** [crypto.createHash('sha256')] followed by [digest('base64')]. *)
Variable sha256Base64 : bytes -> string.

Definition getSha256 (fs : fileSystem) (fileName : string) : error + string :=
  match fs !! fileName with
  | Some content => inr (sha256Base64 content)
  | None => inl (ReadError fileName)
  end.

Definition uploadArtifactToS3 (fs : fileSystem) (fetchOk : bool)
    (fileName : string) (resp : CreateUploadUrlResponse) : list event * (error + unit) :=
  match getSha256 fs fileName with
  | inl e => ([], inl e)
  | inr sha256 =>
    let headersObj : gmap string string :=
      match kmsKeyArn resp with
      | None | Some "" =>
        <["x-amz-checksum-sha256" := sha256]>
          (<["Content-Type" := "application/zip"]> ∅)
      | Some arn =>
        <["x-amz-checksum-sha256" := sha256]>
          (<["Content-Type" := "application/zip"]>
            (<["x-amz-server-side-encryption" := "aws:kms"]>
              (<["x-amz-server-side-encryption-aws-kms-key-id" := arn]> ∅)))
      end in
    match fs !! fileName with
    | None => ([], inl (ReadError fileName))
    | Some body =>
      ([EvFetch "PUT" (uploadUrl resp) body headersObj],
       if fetchOk then inr tt else inl FetchError)
    end
  end.

Definition uploadPayload (C : CodeWhispererConstants) (fs : fileSystem) (h : host)
    (payloadFileName : string) : list event * (error + string) :=
  match getSha256 fs payloadFileName with
  | inl e => ([], inl e)
  | inr sha256 =>
    let req := {| contentChecksum := sha256;
                  reqContentChecksumType := contentChecksumType C;
                  reqUploadIntent := uploadIntent C |} in
    match createUploadUrl h with
    | None => ([EvCreateUploadUrl req], inl CreateUploadUrlError)
    | Some response =>
      let '(evs, r) := uploadArtifactToS3 (filesAfterCreateUploadUrl h) (fetchSettles h)
                         payloadFileName response in
      (EvCreateUploadUrl req :: evs,
       match r with
       | inl e => inl e
       | inr _ => inr (uploadId response)
       end)
    end
  end.

End WithDigest.

End Upload.

(** ** [getFilesRecursively], [getProjectDependencies], [zipCode] *)

Module Zip.

(** A path as the list of its segments, and its text. *)
Definition path := list string.

Definition pathString (p : path) : string := String.concat "/" p.

(** [path.relative(from, to)]: the common prefix is dropped, and every
    segment left of [from] is a step up. *)
Fixpoint relative (from to : path) : path :=
  match from, to with
  | f :: from', t :: to' =>
    if String.eqb f t then relative from' to' else ((fun _ => "..") <$> from) ++ to
  | _, _ => ((fun _ => "..") <$> from) ++ to
  end.

(** [path.join], [path.dirname] and the base name on segment lists (no
    segment below is [.] or [..]). *)
Definition join (a b : path) : path := a ++ b.
Definition dirname (p : path) : path := removelast p.
Definition basename (p : path) : string := List.last p "".

(** What [fs.readdirSync(dir, { withFileTypes: true })] lists, with the
    content of the files and, for a directory, what it lists in turn. *)
#[warnings="-register-all"]
Inductive dirent :=
| File (name : string) (content : bytes)
| Directory (name : string) (entries : list dirent).

Fixpoint filesOf (dir : path) (entry : dirent) : list (path * bytes) :=
  let res := dir ++ [match entry with File name _ | Directory name _ => name end] in
  match entry with
  | Directory name entries =>
    (* exclude 'target' directory from ZIP *)
    if negb (String.eqb name "target") then flat_map (filesOf res) entries else []
  | File _ content => [(res, content)]
  end.

Definition getFilesRecursively (dir : path) (entries : list dirent) : list (path * bytes) :=
  flat_map (filesOf dir) entries.

(** [getProjectDependencies]: the folder path and the folder name; [None] is
    the thrown 'Maven Dependency Error'.  [mvnOk] says whether the spawned
    [mvn] ran and exited with status 0. *)
Definition getProjectDependencies (C : CodeWhispererConstants) (tmpdir : path)
    (now : N) (mvnOk : bool) : option (path * string) :=
  let folderName := dependencyFolderName C +:+ toString now in
  let folderPath := join tmpdir [folderName] in
  if mvnOk then Some (folderPath, folderName) else None.

(** An entry of the archive: its name and its data. *)
Record entry := {
  entryName : string;
  data : bytes
}.

(** [zip.addLocalFile(file, zipPath)]: the entry is named by the base name
    of the file below [zipPath].  (The method is adm-zip's, which is not among
    the sources: this is its naming for paths whose segments hold no
    backslash, and an entry is a name and its bytes.) *)
Definition addLocalFile (file : path * bytes) (zipPath : path) : entry :=
  {| entryName := pathString (zipPath ++ [basename file.1]); data := file.2 |}.

(** The entry of a file listed relative to a folder that the archive holds
    under the name [top]. *)
Definition entryUnder (top : string) (file : path * bytes) : entry :=
  {| entryName := pathString (top :: file.1); data := file.2 |}.

(** The name of the dependency folder of a run that reads [now] from the
    clock. *)
Definition dependencyRoot (C : CodeWhispererConstants) (now : N) : string :=
  dependencyFolderName C +:+ toString now.

Section WithManifest.

(** [Buffer.from(JSON.stringify(zipManifest), 'utf-8')] for the [ZipManifest]
    whose [dependenciesRoot] is the argument; the class is declared in
    [../models/model], which is not among the sources. *)
Variable manifestJson : string -> bytes.

(** [zipCode]: the entries of the archive written to [zipped-code.zip], in
    the order they are added.  [project] is what the module folder lists when
    it is read, [dependencies] what the folder [mvn] filled lists ([None]: the
    Maven command failed), [now] the value of [Date.now()]. *)
Definition zipCode (C : CodeWhispererConstants) (tmpdir : path) (now : N)
    (modulePath : path) (project : list dirent)
    (dependencies : option (list dirent)) : option (list entry) :=
  let sourceFolder := modulePath in
  let sourceFiles := getFilesRecursively sourceFolder project in
  match getProjectDependencies C tmpdir now (bool_decide (is_Some dependencies)) with
  | None => None
  | Some (dependencyFolderPath, dependencyFolderName) =>
    let dependencyFiles :=
      getFilesRecursively dependencyFolderPath (default [] dependencies) in
    let manifest :=
      {| entryName := "manifest.json";
         data := manifestJson (dependencyFolderName +:+ "/") |} in
    let sources :=
      (fun file =>
         let relativePath := relative sourceFolder file.1 in
         let paddedPath := join ["sources"] relativePath in
         addLocalFile file (dirname paddedPath)) <$> sourceFiles in
    let deps :=
      (fun file =>
         let relativePath := relative dependencyFolderPath file.1 in
         let paddedPath := join [dependencyFolderName] relativePath in
         addLocalFile file (dirname paddedPath)) <$> dependencyFiles in
    Some (manifest :: sources ++ deps)
  end.

End WithManifest.

End Zip.

(** ** [CawsAuthStorage] and [CawsAuthenticationProvider] *)

Module Caws.

Record UserMetadata := {
  (** true if the stored session token is known to be invalid; [None] when
      the field is absent *)
  invalidSession : option bool
}.

Record AccountDetails := {
  accountId : string;
  label : string
}.

Record Session := {
  accessDetails : string;
  accountDetails : AccountDetails;
  id : string
}.

(** The memento entry ['caws/users'] and the secret storage. *)
Record CawsAuthStorage := {
  users : gmap string UserMetadata;
  secrets : gmap string string
}.

Definition SECRETS_KEY : string := "caws/authtokens".

Definition secretKey (username : string) : string := SECRETS_KEY +:+ "/" +:+ username.


(** [getSecret] throws ([None]) when no cookie is stored or it is empty. *)
Definition getSecret (st : CawsAuthStorage) (username : string) : option string :=
  match secrets st !! secretKey username with
  | Some cookie => if String.eqb cookie "" then None else Some cookie
  | None => None
  end.

(** [{ ...userdata[username], ...metadata }] *)
Definition spread (old : option UserMetadata) (metadata : option UserMetadata) : UserMetadata :=
  {| invalidSession :=
       match metadata ≫= invalidSession with
       | Some b => Some b
       | None => old ≫= invalidSession
       end |}.

Definition updateUser (st : CawsAuthStorage) (username secret : string)
    (metadata : option UserMetadata) : CawsAuthStorage :=
  {| users := <[username := spread (users st !! username) metadata]> (users st);
     secrets := <[secretKey username := secret]> (secrets st) |}.

(** What [onDidChangeSessions] fires. *)
Inductive change :=
| Added (s : Session)
| Removed (s : Session).

(** The fields of a provider.  [sessionCounter] is a JavaScript number that
    only ever holds a count of sessions; it is modelled as a natural number. *)
Record provider := {
  storage : CawsAuthStorage;
  sessions : gmap string Session;
  sessionCounter : N;
  fired : list change
}.

(** [new CawsAuthenticationProvider(storage, getUser)] *)
Definition newProvider (st : CawsAuthStorage) : provider :=
  {| storage := st; sessions := ∅; sessionCounter := 0; fired := [] |}.

Definition withStorage (p : provider) (st : CawsAuthStorage) : provider :=
  {| storage := st; sessions := sessions p;
     sessionCounter := sessionCounter p; fired := fired p |}.

(** [`session-${n}`] *)
Definition sessionId (n : N) : string := "session-" +:+ toString n.

Section WithVerifier.

(** The [getUser] given to the constructor ([verifyCookie] by default): the
    user name of a cookie, [None] when it throws. *)
Variable getUser : string -> option string.

Definition createAccount (p : provider) (cookie : string) : option AccountDetails * provider :=
  match getUser cookie with
  | None => (None, p)
  | Some username =>
    (Some {| accountId := username; label := username |},
     withStorage p (updateUser (storage p) username cookie None))
  end.

Definition listSessions (p : provider) : list Session := (map_to_list (sessions p)).*2.

(** [login]: [None] is the rethrown error of the [catch] block.  The block
    calls [updateUser] without awaiting it: the provider given with [None]
    is the one the source is in once that update has been applied.  Neither
    the sessions, the counter nor the events depend on it. *)
Definition login (p : provider) (accountId : string) : option Session * provider :=
  match getSecret (storage p) accountId ≫= (fun cookie => pair cookie <$> getUser cookie) with
  | Some (cookie, username) =>
    let counter := (sessionCounter p + 1)%N in
    (Some {| accessDetails := cookie;
             accountDetails := {| accountId := username; label := username |};
             id := sessionId counter |},
     {| storage := updateUser (storage p) username cookie None;
        sessions := sessions p;
        sessionCounter := counter;
        fired := fired p |})
  | None =>
    (None,
     withStorage p
       (updateUser (storage p) accountId "" (Some {| invalidSession := Some true |})))
  end.

Definition createSession (p : provider) (account : AccountDetails) : option Session * provider :=
  match login p (accountId account) with
  | (Some session, p') =>
    (Some session,
     {| storage := storage p';
        sessions := <[id session := session]> (sessions p');
        sessionCounter := sessionCounter p';
        fired := fired p' ++ [Added session] |})
  | (None, p') => (None, p')
  end.

Definition deleteSession (p : provider) (session : Session) : provider :=
  let old := sessions p !! id session in
  {| storage := storage p;
     sessions := delete (id session) (sessions p);
     sessionCounter := sessionCounter p;
     fired := fired p ++ match old with Some o => [Removed o] | None => [] end |}.

End WithVerifier.

(** The calls a client makes on one provider, each with the answers the
    verifier gives during it. *)
Inductive call :=
| CallCreateAccount (getUser : string -> option string) (cookie : string)
| CallCreateSession (getUser : string -> option string) (account : AccountDetails)
| CallDeleteSession (session : Session).

(** A provider after a sequence of calls, with the sessions [createSession]
    returned, oldest first. *)
Fixpoint runCalls (calls : list call) (p : provider) : provider * list Session :=
  match calls with
  | [] => (p, [])
  | c :: calls' =>
    match c with
    | CallCreateAccount getUser cookie => runCalls calls' (createAccount getUser p cookie).2
    | CallCreateSession getUser account =>
      let '(created, p') := createSession getUser p account in
      let '(p'', more) := runCalls calls' p' in
      (p'', match created with Some s => s :: more | None => more end)
    | CallDeleteSession session => runCalls calls' (deleteSession p session)
    end
  end.

End Caws.

(** ** [EnvironmentSettingsWizard] *)

Module Wizard.

(** Objects live in a store and are named by their address: two fields that
    hold the same address hold the same object. *)
Definition loc := positive.

Section WithNumber.

(** JavaScript numbers with [!==]. *)
Variable number : Type.
Variable strictNe : number -> number -> bool.

Definition InstanceType := string.

(** [{ sizeInGiB }] *)
Record PersistentStorage := {
  sizeInGiB : number
}.

(** A [SettingsForm]; the nested object is held by address. *)
Record SettingsForm := {
  inactivityTimeoutMinutes : number;
  instanceType : InstanceType;
  persistentStorage : loc
}.

Inductive object :=
| Form (f : SettingsForm)
| Storage (s : PersistentStorage).

Abbreviation store := (gmap loc object).

Definition getForm (h : store) (l : loc) : option SettingsForm :=
  match h !! l with Some (Form f) => Some f | _ => None end.

Definition getStorage (h : store) (l : loc) : option PersistentStorage :=
  match h !! l with Some (Storage s) => Some s | _ => None end.

(** A new object: it gets an address no object of the store has. *)
Definition alloc (h : store) (o : object) : loc * store :=
  let l := fresh (dom h) in (l, <[l := o]> h).

(** What [diff(initState, currentState)] is read for: which of the three
    settings it lists.  [diff] writes to the object it creates only, which
    nothing else holds. *)
Record diffState := {
  diffInstanceType : bool;
  diffInactivityTimeoutMinutes : bool;
  diffPersistentStorageSize : bool
}.

Definition diff (h : store) (obj1 obj2 : SettingsForm) : option diffState :=
  s1 ← getStorage h (persistentStorage obj1);
  s2 ← getStorage h (persistentStorage obj2);
  Some {| diffInstanceType := negb (String.eqb (instanceType obj1) (instanceType obj2));
          diffInactivityTimeoutMinutes :=
            strictNe (inactivityTimeoutMinutes obj1) (inactivityTimeoutMinutes obj2);
          diffPersistentStorageSize := strictNe (sizeInGiB s1) (sizeInGiB s2) |}.

(** What the user does with one menu: leaves it (no valid response), picks
    'Save Settings', or picks one of the three edit items and answers its
    prompt ([None]: no valid response). *)
Inductive choice :=
| Leave
| SaveSettings
| EditComputeSize (result : option InstanceType)
| EditTimeoutLength (result : option number)
| EditPersistentStorageSize (result : option number).

(** The [data] function of the picked edit item, run on [currentState]. *)
Definition editItem (h : store) (currentState : loc) (c : choice) : option store :=
  f ← getForm h currentState;
  match c with
  | EditComputeSize (Some result) =>
    (* currentState.instanceType = result *)
    Some (<[currentState :=
              Form {| inactivityTimeoutMinutes := inactivityTimeoutMinutes f;
                      instanceType := result;
                      persistentStorage := persistentStorage f |}]> h)
  | EditTimeoutLength (Some result) =>
    (* currentState.inactivityTimeoutMinutes = result *)
    Some (<[currentState :=
              Form {| inactivityTimeoutMinutes := result;
                      instanceType := instanceType f;
                      persistentStorage := persistentStorage f |}]> h)
  | EditPersistentStorageSize (Some result) =>
    (* currentState.persistentStorage = { sizeInGiB: result } *)
    let '(l, h') := alloc h (Storage {| sizeInGiB := result |}) in
    Some (<[currentState :=
              Form {| inactivityTimeoutMinutes := inactivityTimeoutMinutes f;
                      instanceType := instanceType f;
                      persistentStorage := l |}]> h')
  | _ => Some h
  end.

(** How [run] ends: with the saved form (its address), with [undefined], or,
    in the model only, waiting for a choice the list does not hold. *)
Inductive response :=
| Saved (form : loc)
| Undefined
| Waiting.

Record outcome := {
  final : store;
  returned : response;
  menus : list diffState
}.

(** The loop of [run]: one menu per choice. *)
Fixpoint menuLoop (h : store) (initState curr : loc) (choices : list choice) : option outcome :=
  match choices with
  | [] => Some {| final := h; returned := Waiting; menus := [] |}
  | c :: choices' =>
    (* createMenuPrompt(this.initState, curr) *)
    i ← getForm h initState;
    f ← getForm h curr;
    d ← diff h i f;
    match c with
    | Leave => Some {| final := h; returned := Undefined; menus := [d] |}
    | SaveSettings => Some {| final := h; returned := Saved curr; menus := [d] |}
    | _ =>
      h' ← editItem h curr c;
      o ← menuLoop h' initState curr choices';
      Some {| final := final o; returned := returned o; menus := d :: menus o |}
    end
  end.

(** [run]: [curr = Object.assign({}, this.initState)] is a new object with
    the fields of [initState], the address of the nested object included. *)
Definition run (h : store) (initState : loc) (choices : list choice) : option outcome :=
  i ← getForm h initState;
  let '(curr, h') := alloc h (Form i) in
  menuLoop h' initState curr choices.

End WithNumber.

Arguments sizeInGiB {number} _.
Arguments inactivityTimeoutMinutes {number} _.
Arguments instanceType {number} _.
Arguments persistentStorage {number} _.
Arguments Form {number} f.
Arguments Storage {number} s.
Arguments getForm {number} h l.
Arguments getStorage {number} h l.
Arguments alloc {number} h o.
Arguments diff {number} strictNe h obj1 obj2.
Arguments Leave {number}.
Arguments SaveSettings {number}.
Arguments EditComputeSize {number} result.
Arguments EditTimeoutLength {number} result.
Arguments EditPersistentStorageSize {number} result.
Arguments editItem {number} h currentState c.
Arguments final {number} _.
Arguments returned {number} _.
Arguments menus {number} _.
Arguments menuLoop {number} strictNe h initState curr choices.
Arguments run {number} strictNe h initState choices.

End Wizard.

(** ** Values to run the models on *)

Module Samples.

Definition constants : CodeWhispererConstants :=
  {| failureStates := ["FAILED"; "STOPPING"; "STOPPED"; "REJECTED"];
     transformationJobPollingIntervalSeconds := 10;
     transformationJobTimeoutSeconds := 25;
     dependencyFolderName := "transformation_dependencies_temp_";
     contentChecksumType := "SHA_256";
     uploadIntent := "TRANSFORMATION" |}.

(** A host that shows the observations of a list, then [last] for ever. *)
Definition worldOf (obs : list Poll.observation) (last : Poll.observation) : Poll.world :=
  fun i => nth i obs last.

Definition sees (status : string) : Poll.observation :=
  {| Poll.cancelled := false; Poll.answer := Poll.JobStatus status |}.

Definition cancelledNow : Poll.observation :=
  {| Poll.cancelled := true; Poll.answer := Poll.JobStatus "TRANSFORMING" |}.

(** The job is planned at the second query. *)
Definition plannedWorld : Poll.world := worldOf [sees "TRANSFORMING"] (sees "PLANNED").

(** The job fails at the second query. *)
Definition failedWorld : Poll.world := worldOf [sees "TRANSFORMING"] (sees "FAILED").

(** The job never leaves the pending status. *)
Definition pendingWorld : Poll.world := worldOf [] (sees "TRANSFORMING").

(** The job is stopped, and the caller waits for that. *)
Definition stoppedWorld : Poll.world := worldOf [] (sees "STOPPED").

(** The transformation is cancelled while the caller sleeps after the second
    query. *)
Definition cancelledWorld : Poll.world :=
  worldOf [sees "TRANSFORMING"; sees "TRANSFORMING"] cancelledNow.

Definition manifestJson (dependenciesRoot : string) : bytes :=
  String.list_byte_of_string dependenciesRoot.

Definition project : list Zip.dirent :=
  [Zip.File "pom.xml" [x3c; x70; x3e];
   Zip.Directory "src" [Zip.File "App.java" [x41]];
   Zip.Directory "target" [Zip.File "App.class" [xca; xfe]]].

Definition dependencies : list Zip.dirent :=
  [Zip.Directory "org" [Zip.File "lib.jar" [x50; x4b]]].

Definition zipAt (now : N) : option (list Zip.entry) :=
  Zip.zipCode manifestJson constants ["tmp"] now ["home"; "project"]
    project (Some dependencies).

(** A stand-in for the digest: the theorems hold for every function. *)
Definition digest (content : bytes) : string :=
  "sha256:" +:+ String.string_of_list_byte content.

Definition payload : string := "/tmp/zipped-code.zip".

Definition files : gmap string bytes := {[ payload := [x50; x4b; x03; x04] ]}.

Definition uploadResponse : Upload.CreateUploadUrlResponse :=
  {| Upload.uploadId := "upload-1";
     Upload.uploadUrl := "https://bucket.example/upload-1";
     Upload.kmsKeyArn := None |}.

Definition uploadHost : Upload.host :=
  {| Upload.createUploadUrl := Some uploadResponse;
     Upload.filesAfterCreateUploadUrl := files;
     Upload.fetchSettles := true |}.

(** Numbers for the wizard: integers, [!==] as their inequality. *)
Definition strictNe (a b : Z) : bool := negb (a =? b)%Z.

Definition initForm : Wizard.SettingsForm Z :=
  {| Wizard.inactivityTimeoutMinutes := 15%Z;
     Wizard.instanceType := "mde.medium";
     Wizard.persistentStorage := 2%positive |}.

Definition initStorage : Wizard.PersistentStorage Z := {| Wizard.sizeInGiB := 16%Z |}.

Definition settingsStore : gmap Wizard.loc (Wizard.object Z) :=
  <[1%positive := Wizard.Form initForm]>
    (<[2%positive := Wizard.Storage initStorage]> ∅).

Definition edits : list (Wizard.choice Z) :=
  [Wizard.EditPersistentStorageSize (Some 32%Z);
   Wizard.EditComputeSize (Some "mde.large");
   Wizard.EditTimeoutLength None;
   Wizard.SaveSettings].

Definition cawsStorage : Caws.CawsAuthStorage :=
  {| Caws.users := ∅;
     Caws.secrets := {[ Caws.secretKey "alice" := "cookie-of-alice" ]} |}.

Definition verifier (cookie : string) : option string :=
  if String.eqb cookie "cookie-of-alice" then Some "alice" else None.

Definition alice : Caws.AccountDetails := {| Caws.accountId := "alice"; Caws.label := "alice" |}.
Definition bob : Caws.AccountDetails := {| Caws.accountId := "bob"; Caws.label := "bob" |}.

Definition calls : list Caws.call :=
  [Caws.CallCreateSession verifier alice;
   Caws.CallCreateSession verifier bob;
   Caws.CallDeleteSession
     {| Caws.accessDetails := "cookie-of-alice"; Caws.accountDetails := alice;
        Caws.id := "session-1" |};
   Caws.CallCreateSession verifier alice].

End Samples.

(** ** Measures of a polling run *)

Module PollTrace.
Import Poll.

(** The milliseconds a run spends in [sleep]. *)
Fixpoint totalSleep (es : list event) : Z :=
  match es with
  | [] => 0
  | EvSleep ms :: es' => ms + totalSleep es'
  | _ :: es' => totalSleep es'
  end.

Definition isCheck (e : event) : bool :=
  match e with EvIsCancelled _ => true | _ => false end.

End PollTrace.

(** ** What [getFilesRecursively] is meant to list *)

Module ZipSpec.
Import Zip.

(** [listed entries rel content]: below a folder that lists [entries], the
    relative path [rel] leads to a file with that content through
    directories none of which is named [target]. *)
Inductive listed : list dirent -> path -> bytes -> Prop :=
| listed_file entries name content :
    File name content ∈ entries ->
    listed entries [name] content
| listed_below entries name sub rel content :
    Directory name sub ∈ entries ->
    name <> "target" ->
    listed sub rel content ->
    listed entries (name :: rel) content.

(** [zip.addFile] and [zip.addLocalFile] belong to adm-zip, which is not
    among the sources.  adm-zip reads a backslash in the path of a file as a
    separator, and it replaces the entry when a file is added under a name
    the archive holds already; [Zip.addLocalFile] is what it does when no
    name holds a backslash and no two files get the same entry name. *)
Definition backslash : Ascii.ascii := Ascii.ascii_of_nat 92.

Fixpoint hasBackslash (s : string) : bool :=
  match s with
  | EmptyString => false
  | String c s' => Ascii.eqb c backslash || hasBackslash s'
  end.

(** No segment of the path of any of the files holds a backslash. *)
Definition plain (files : list (path * bytes)) : bool :=
  forallb (fun file : path * bytes =>
             forallb (fun segment => negb (hasBackslash segment)) file.1) files.

End ZipSpec.

(** ** [CawsAuthenticationProvider.listAccounts] *)

Module CawsAccounts.
Import Caws.


(** Whether the storage knows the session token of a user to be invalid. *)
Definition knownInvalid (st : CawsAuthStorage) (username : string) : Prop :=
  users st !! username ≫= invalidSession = Some true.

End CawsAccounts.

(** ** What the user asked the settings wizard for *)

Module WizardSpec.
Import Wizard.

Section WithNumber.

Variable number : Type.

(** The compute size the user answered last before leaving the menu or
    saving, [current] when there is no such answer; and the same for the
    time-out and the storage size. *)
Fixpoint lastComputeSize (choices : list (choice number)) (current : InstanceType)
    : InstanceType :=
  match choices with
  | [] | Leave :: _ | SaveSettings :: _ => current
  | EditComputeSize (Some result) :: rest => lastComputeSize rest result
  | _ :: rest => lastComputeSize rest current
  end.

Fixpoint lastTimeoutLength (choices : list (choice number)) (current : number) : number :=
  match choices with
  | [] | Leave :: _ | SaveSettings :: _ => current
  | EditTimeoutLength (Some result) :: rest => lastTimeoutLength rest result
  | _ :: rest => lastTimeoutLength rest current
  end.

Fixpoint lastStorageSize (choices : list (choice number)) (current : number) : number :=
  match choices with
  | [] | Leave :: _ | SaveSettings :: _ => current
  | EditPersistentStorageSize (Some result) :: rest => lastStorageSize rest result
  | _ :: rest => lastStorageSize rest current
  end.

(** Whether the user answered the storage prompt before leaving or saving. *)
Fixpoint storageEdited (choices : list (choice number)) : bool :=
  match choices with
  | [] | Leave :: _ | SaveSettings :: _ => false
  | EditPersistentStorageSize (Some _) :: _ => true
  | _ :: rest => storageEdited rest
  end.

(** How the menus end for a user who makes these choices: the first
    'Save Settings' or leave decides; [curr] is the form being edited. *)
Fixpoint endOf (curr : loc) (choices : list (choice number)) : response :=
  match choices with
  | [] => Waiting
  | Leave :: _ => Undefined
  | SaveSettings :: _ => Saved curr
  | _ :: rest => endOf curr rest
  end.

(** The menus shown to that user: one per choice, the deciding one
    included. *)
Fixpoint menusShown (choices : list (choice number)) : nat :=
  match choices with
  | [] => 0
  | Leave :: _ | SaveSettings :: _ => 1
  | _ :: rest => S (menusShown rest)
  end.

End WithNumber.

Arguments endOf {number} curr choices.
Arguments menusShown {number} choices.
Arguments lastComputeSize {number} choices current.
Arguments lastTimeoutLength {number} choices current.
Arguments lastStorageSize {number} choices current.
Arguments storageEdited {number} choices.

End WizardSpec.

(** ** [getValidModules] *)

Module ValidModules.

(** A workspace folder with what the host finds in it: the result of
    [findFiles] for [**/*.class] and for [**/pom.xml] (at most one file is
    asked for). *)
Record WorkspaceFolder := {
  name : string;
  fsPath : string;
  compiledJavaFiles : list string;
  buildFile : list string
}.

Record QuickPickItem := {
  label : string;
  description : string
}.

Inductive JDKVersion := JDK8 | JDK11.

(** The locals of the loop, and the source JDK version of
    [transformByQState]. *)
Record state := {
  validModules : list QuickPickItem;
  containsSupportedJava : bool;
  containsPomXml : bool;
  sourceJDKVersion : option JDKVersion
}.

Record outcome := {
  shown : list string;
  result : string + list QuickPickItem;
  finalJDKVersion : option JDKVersion
}.

(** [s.indexOf(pattern)], where [None] is -1. *)
Definition indexOf (s pattern : string) : option nat := String.index 0 pattern s.

(** [s.slice(i + 15, i + 17)] for [i = s.indexOf(..)]: two characters from
    position [i + 15], or from position 14 when [i] is -1. *)
Definition sliceAfter (s : string) (i : option nat) : string :=
  match i with
  | Some n => String.substring (n + 15) 2 s
  | None => String.substring 14 2 s
  end.

Section WithHost.

(** [spawnSync('javap', ['-v', classFilePath])]: its [stdout], [None] when
    [spawnResult.error] is set. *)
Variable javap : string -> option string.
(** [String.prototype.trim] *)
Variable trim : string -> string.
(** Constants of [CodeWhispererConstants]. *)
Variable JDK8VersionNumber JDK11VersionNumber : string.
Variable noSupportedJavaProjectsFoundMessage noPomXmlFoundMessage : string.

Definition javaVersionOf (stdout : string) : string :=
  let majorVersionIndex := indexOf stdout "major version: " in
  trim (sliceAfter stdout majorVersionIndex).

(** One iteration of [for (const folder of folders)]. *)
Definition visit (st : state) (folder : WorkspaceFolder) : state :=
  match compiledJavaFiles folder with
  | [] => st
  | classFilePath :: _ =>
    match javap classFilePath with
    | None => st
    | Some stdout =>
      let javaVersion := javaVersionOf stdout in
      let withVersion (v : JDKVersion) : state :=
        match buildFile folder with
        | [] =>
          {| validModules := validModules st;
             containsSupportedJava := true;
             containsPomXml := containsPomXml st;
             sourceJDKVersion := Some v |}
        | _ :: _ =>
          {| validModules :=
               validModules st ++ [{| label := name folder; description := fsPath folder |}];
             containsSupportedJava := true;
             containsPomXml := true;
             sourceJDKVersion := Some v |}
        end in
      if String.eqb javaVersion JDK8VersionNumber then withVersion JDK8
      else if String.eqb javaVersion JDK11VersionNumber then withVersion JDK11
      else st
    end
  end.

(** [getValidModules], given [vscode.workspace.workspaceFolders] ([None]:
    undefined) and the source JDK version recorded before the call. *)
Definition getValidModules (folders : option (list WorkspaceFolder))
    (recorded : option JDKVersion) : outcome :=
  match folders with
  | None =>
    {| shown := [noSupportedJavaProjectsFoundMessage];
       result := inl "No Java projects found since no projects are open";
       finalJDKVersion := recorded |}
  | Some folders =>
    let st := foldl visit
                {| validModules := []; containsSupportedJava := false;
                   containsPomXml := false; sourceJDKVersion := recorded |}
                folders in
    if negb (containsSupportedJava st) then
      {| shown := [noSupportedJavaProjectsFoundMessage];
         result := inl "No Java projects found";
         finalJDKVersion := sourceJDKVersion st |}
    else if negb (containsPomXml st) then
      {| shown := [noPomXmlFoundMessage];
         result := inl "No build file found";
         finalJDKVersion := sourceJDKVersion st |}
    else
      {| shown := []; result := inr (validModules st);
         finalJDKVersion := sourceJDKVersion st |}
  end.

(** The supported JDK version of the compiled Java of a folder, if it has
    any: that of the first class file found, as [javap] prints it. *)
Definition supportedJava (folder : WorkspaceFolder) : option JDKVersion :=
  match compiledJavaFiles folder with
  | [] => None
  | classFilePath :: _ =>
    stdout ← javap classFilePath;
    if String.eqb (javaVersionOf stdout) JDK8VersionNumber then Some JDK8
    else if String.eqb (javaVersionOf stdout) JDK11VersionNumber then Some JDK11
    else None
  end.

Definition hasSupportedJava (folder : WorkspaceFolder) : bool :=
  bool_decide (is_Some (supportedJava folder)).

(** A folder the user can pick: supported compiled Java and a [pom.xml]. *)
Definition isValidModule (folder : WorkspaceFolder) : bool :=
  hasSupportedJava folder &&
  match buildFile folder with [] => false | _ :: _ => true end.

Definition itemOf (folder : WorkspaceFolder) : QuickPickItem :=
  {| label := name folder; description := fsPath folder |}.

End WithHost.

End ValidModules.

(** ** More values to run the models on *)

Module MoreSamples.

(** The second status query is rejected by the service. *)
Definition rejectedWorld : Poll.world :=
  Samples.worldOf [Samples.sees "TRANSFORMING"]
    {| Poll.cancelled := false; Poll.answer := Poll.Rejected "ThrottlingException" |}.

Definition kmsResponse : Upload.CreateUploadUrlResponse :=
  {| Upload.uploadId := "upload-2";
     Upload.uploadUrl := "https://bucket.example/upload-2";
     Upload.kmsKeyArn := Some "arn:aws:kms:us-east-1:111122223333:key/1" |}.

(** Blanks and line ends removed at both ends, for the sample outputs of
    [javap], which are plain ASCII. *)
Definition isBlank (c : Ascii.ascii) : bool :=
  let n := Ascii.nat_of_ascii c in
  Nat.eqb n 32 || (Nat.leb 9 n && Nat.leb n 13).

Fixpoint dropBlanks (cs : list Ascii.ascii) : list Ascii.ascii :=
  match cs with
  | c :: cs' => if isBlank c then dropBlanks cs' else cs
  | [] => []
  end.

Definition trim (s : string) : string :=
  String.string_of_list_ascii
    (rev (dropBlanks (rev (dropBlanks (String.list_ascii_of_string s))))).

Definition newline : string := String (Ascii.ascii_of_nat 10) "".

(** What [javap -v] prints for three class files, in part. *)
Definition javap (classFilePath : string) : option string :=
  if String.eqb classFilePath "/ws/app/target/App.class" then
    Some ("  minor version: 0" +:+ newline +:+ "  major version: 52" +:+ newline)
  else if String.eqb classFilePath "/ws/lib/out/Lib.class" then
    Some ("  minor version: 0" +:+ newline +:+ "  major version: 55" +:+ newline)
  else if String.eqb classFilePath "/ws/new/out/New.class" then
    Some ("  minor version: 0" +:+ newline +:+ "  major version: 61" +:+ newline)
  else None.

(** A Maven module compiled for JDK 8, a folder compiled for JDK 11 without
    [pom.xml], a Maven module compiled for JDK 17, and a Maven module that
    is not compiled. *)
Definition workspace : list ValidModules.WorkspaceFolder :=
  [{| ValidModules.name := "app"; ValidModules.fsPath := "/ws/app";
      ValidModules.compiledJavaFiles := ["/ws/app/target/App.class"];
      ValidModules.buildFile := ["/ws/app/pom.xml"] |};
   {| ValidModules.name := "new"; ValidModules.fsPath := "/ws/new";
      ValidModules.compiledJavaFiles := ["/ws/new/out/New.class"];
      ValidModules.buildFile := ["/ws/new/pom.xml"] |};
   {| ValidModules.name := "docs"; ValidModules.fsPath := "/ws/docs";
      ValidModules.compiledJavaFiles := [];
      ValidModules.buildFile := ["/ws/docs/pom.xml"] |};
   {| ValidModules.name := "lib"; ValidModules.fsPath := "/ws/lib";
      ValidModules.compiledJavaFiles := ["/ws/lib/out/Lib.class"];
      ValidModules.buildFile := [] |}].

(** The provider after the sample calls, and after the failed login of
    [bob] alone; a storage that knows the token of [alice] to be invalid. *)
Definition afterCalls : Caws.provider :=
  (Caws.runCalls Samples.calls (Caws.newProvider Samples.cawsStorage)).1.

Definition createdByCalls : list Caws.Session :=
  (Caws.runCalls Samples.calls (Caws.newProvider Samples.cawsStorage)).2.


Definition markedStorage : Caws.CawsAuthStorage :=
  Caws.updateUser Samples.cawsStorage "alice" "cookie-of-alice"
    (Some {| Caws.invalidSession := Some true |}).

Definition sessionOfAlice (id : string) : Caws.Session :=
  {| Caws.accessDetails := "cookie-of-alice"; Caws.accountDetails := Samples.alice;
     Caws.id := id |}.

Definition emptyStorage : Caws.CawsAuthStorage := {| Caws.users := ∅; Caws.secrets := ∅ |}.

Definition afterCreateAccount : Caws.provider :=
  (Caws.createAccount Samples.verifier (Caws.newProvider emptyStorage) "cookie-of-alice").2.

Definition getValidModules (folders : option (list ValidModules.WorkspaceFolder))
    (recorded : option ValidModules.JDKVersion) : ValidModules.outcome :=
  ValidModules.getValidModules javap trim "52" "55"
    "No supported Java projects found" "No pom.xml found" folders recorded.

End MoreSamples.

(** * Properties of [pollTransformationJob] *)

Section PollProofs.
Import Poll.

Variable C : CodeWhispererConstants.
Variable w : world.
Variable jobId : string.
Variable validStates : list string.

Local Abbreviation interval := (transformationJobPollingIntervalSeconds C).
Local Abbreviation timeout := (transformationJobTimeoutSeconds C).
Local Abbreviation loop := (pollLoop C w jobId validStates).

(** What the place of one event in the host calls of a run says about the
    run: [pre] are the calls before it, [post] the calls after it, [timer] the
    value of the local when the run started. *)
Definition eventSpec (timer : Z) (r : run)
    (pre : list event) (e : event) (post : list event) : Prop :=
  match e with
  | EvIsCancelled true => post = [] /\ result r = Threw TransformByQStoppedError
  | EvIsCancelled false => exists a post', post = EvGetCodeTransformation jobId a :: post'
  | EvGetCodeTransformation j a =>
      j = jobId /\
      (exists pre', pre = pre' ++ [EvIsCancelled false]) /\
      match a with
      | Rejected reason => post = [] /\ result r = Threw (HostError reason)
      | JobStatus status =>
          if includes validStates status then post = [] /\ result r = Returned status
          else if includes (failureStates C) status then post = [] /\ result r = Threw jobFailed
          else exists post', post = EvSleep (interval * 1000) :: post'
      end
  | EvSleep ms =>
      ms = (interval * 1000)%Z /\
      (exists pre' status,
          pre = pre' ++ [EvGetCodeTransformation jobId (JobStatus status)] /\
          pending C validStates status) /\
      if (timeout <? timer + (Z.of_nat (countEvents isSleep pre) + 1) * interval)%Z
      then post = [] /\ result r = Threw timedOut
      else (post = [] /\ result r = OutOfFuel) \/
           (exists b post', post = EvIsCancelled b :: post')
  end.

Lemma pollLoop_head fuel i timer :
  (events (loop fuel i timer) = [] /\ result (loop fuel i timer) = OutOfFuel) \/
  (exists b post, events (loop fuel i timer) = EvIsCancelled b :: post).
Proof.
  destruct fuel as [|fuel]; cbn [pollLoop throwIfCancelled]; [by left|right].
  destruct (cancelled (w i)); [by eauto|].
  destruct (answer (w i)) as [reason|status]; [by eauto|].
  destruct (includes validStates status); [by eauto|].
  destruct (includes (failureStates C) status); [by eauto|].
  destruct (timeout <? timer + interval)%Z; cbn; by eauto.
Qed.

Lemma pollLoop_event fuel : forall i timer pre e post,
  events (loop fuel i timer) = pre ++ e :: post ->
  eventSpec timer (loop fuel i timer) pre e post.
Proof.
  induction fuel as [|fuel IH]; intros i timer pre e post; cbn [pollLoop throwIfCancelled].
  { cbn. by destruct pre. }
  destruct (cancelled (w i)) eqn:Hc.
  { cbn. destruct pre as [|? [|? ?]]; intros ?; by simplify_eq/=. }
  destruct (answer (w i)) as [reason|status] eqn:Ha.
  { cbn. destruct pre as [|? [|? [|? ?]]]; intros ?; simplify_eq/=;
      [by eauto | by repeat split; [exists []|..]]. }
  destruct (includes validStates status) eqn:Hv.
  { cbn. destruct pre as [|? [|? [|? ?]]]; intros ?; simplify_eq/=;
      [by eauto | rewrite Hv; by repeat split; [exists []|..]]. }
  destruct (includes (failureStates C) status) eqn:Hf.
  { cbn. destruct pre as [|? [|? [|? ?]]]; intros ?; simplify_eq/=;
      [by eauto | rewrite Hv, Hf; by repeat split; [exists []|..]]. }
  destruct (timeout <? timer + interval)%Z eqn:Ht.
  { cbn. destruct pre as [|? [|? [|? [|? ?]]]]; intros ?; simplify_eq/=.
    - by eauto.
    - rewrite Hv, Hf. repeat split; [by exists []|by eauto].
    - replace (timer + (Z.of_nat 0 + 1) * interval)%Z with (timer + interval)%Z by lia.
      rewrite Ht. repeat split; [|done..].
      exists [EvIsCancelled false], status. by repeat split. }
  cbn. destruct pre as [|e1 [|e2 [|e3 pre]]]; intros Heq;
    [simplify_eq/=..|injection Heq as <- <- <- Heq].
  - by eauto.
  - rewrite Hv, Hf. repeat split; [by exists []|by eauto].
  - replace (timer + (Z.of_nat 0 + 1) * interval)%Z with (timer + interval)%Z by lia.
    rewrite Ht. repeat split.
    + exists [EvIsCancelled false], status. by repeat split.
    + destruct (pollLoop_head fuel (S i) (timer + interval)%Z) as [[-> ->]|(b & p & ->)];
        [by left|right; by eauto].
  - specialize (IH _ _ _ _ _ Heq). destruct e as [[]|j a|ms]; cbn in IH |- *.
    + done.
    + done.
    + destruct IH as (-> & [pre' ->] & IH). repeat split; [|done].
      by exists (EvIsCancelled false ::
                 EvGetCodeTransformation jobId (JobStatus status) ::
                 EvSleep (interval * 1000) :: pre').
    + destruct IH as (-> & (pre' & s & -> & Hp) & IH). repeat split.
      * exists (EvIsCancelled false ::
                EvGetCodeTransformation jobId (JobStatus status) ::
                EvSleep (interval * 1000) :: pre'), s. by split.
      * rewrite Nat2Z.inj_succ.
        match goal with
        | |- context [(timeout <? ?a)%Z] =>
            replace a with
              (timer + interval + (Z.of_nat (countEvents isSleep
                 (pre' ++ [EvGetCodeTransformation jobId (JobStatus s)])) + 1) * interval)%Z
              by lia
        end.
        done.
Qed.


(** Observation [n] is shown to the iteration that follows [n] queries: when
    it says "cancelled", at most [n] queries are made. *)
Lemma pollLoop_cancelled fuel : forall i timer n,
  i <= n -> cancelled (w n) = true ->
  queries (loop fuel i timer) <= n - i.
Proof.
  induction fuel as [|fuel IH]; intros i timer n Hle Hn; cbn [pollLoop throwIfCancelled];
    [unfold queries; cbn; lia|].
  destruct (decide (i = n)) as [->|Hne].
  { rewrite Hn. unfold queries. cbn. lia. }
  destruct (cancelled (w i)); [unfold queries; cbn; lia|].
  destruct (answer (w i)) as [reason|status]; [unfold queries; cbn; lia|].
  destruct (includes validStates status); [unfold queries; cbn; lia|].
  destruct (includes (failureStates C) status); [unfold queries; cbn; lia|].
  destruct (timeout <? timer + interval)%Z; [unfold queries; cbn; lia|].
  specialize (IH (S i) (timer + interval)%Z n ltac:(lia) Hn).
  unfold queries in *. cbn. lia.
Qed.

(** The number of iterations left when the local is [timer]. *)
Definition iterationsLeft (timer : Z) : nat :=
  Z.to_nat ((timeout - timer) / interval) + 1.

Lemma pollLoop_bounded fuel : forall i timer,
  (0 < interval)%Z -> (timer <= timeout)%Z ->
  iterationsLeft timer <= fuel ->
  result (loop fuel i timer) <> OutOfFuel /\
  queries (loop fuel i timer) <= iterationsLeft timer /\
  loop fuel i timer = loop (iterationsLeft timer) i timer.
Proof.
  induction fuel as [|fuel IH]; intros i timer Hi Ht Hfuel.
  { unfold iterationsLeft in Hfuel. lia. }
  assert (Hm : exists m, iterationsLeft timer = S m /\
                 m = Z.to_nat ((timeout - timer) / interval)).
  { eexists. split; [|done]. unfold iterationsLeft. lia. }
  destruct Hm as (m & Hm & Hmdef). rewrite Hm. cbn [pollLoop throwIfCancelled].
  destruct (cancelled (w i)); [unfold queries; cbn; split; [done|split; [lia|done]]|].
  destruct (answer (w i)) as [reason|status];
    [unfold queries; cbn; split; [done|split; [lia|done]]|].
  destruct (includes validStates status);
    [unfold queries; cbn; split; [done|split; [lia|done]]|].
  destruct (includes (failureStates C) status);
    [unfold queries; cbn; split; [done|split; [lia|done]]|].
  destruct (timeout <? timer + interval)%Z eqn:Hlt;
    [unfold queries; cbn; split; [done|split; [lia|done]]|].
  apply Z.ltb_ge in Hlt.
  assert (Hleft : iterationsLeft (timer + interval) = m).
  { unfold iterationsLeft. subst m.
    replace (timeout - (timer + interval))%Z with ((timeout - timer) + (-1) * interval)%Z by lia.
    rewrite Z.div_add by lia.
    assert (1 <= (timeout - timer) / interval)%Z by (apply Z.div_le_lower_bound; lia).
    lia. }
  destruct (IH (S i) (timer + interval)%Z Hi Hlt) as (Hres & Hq & Heq).
  { rewrite Hleft. lia. }
  rewrite Hleft in Hq, Heq. rewrite Heq in Hres, Hq |- *.
  unfold queries in *. cbn. split; [done|split; [lia|done]].
Qed.

Local Abbreviation poll := (pollTransformationJob C w).
Local Abbreviation queryOf status := (EvGetCodeTransformation jobId (JobStatus status)).

(** C1: as soon as a queried status is in [validStates], polling stops and
    that status is returned: the query that saw it is the last host call of
    the run, the run returns the status, and no earlier query of the run saw a
    valid status. *)
Theorem poll_returns_first_valid_status fuel pre status post :
  events (poll fuel jobId validStates) = pre ++ queryOf status :: post ->
  includes validStates status = true ->
  post = [] /\
  result (poll fuel jobId validStates) = Returned status /\
  (forall earlier, queryOf earlier ∈ pre -> includes validStates earlier = false).
Proof.
  intros Hev Hvalid. pose proof (pollLoop_event _ _ _ _ _ _ Hev) as Hspec.
  cbn in Hspec. rewrite Hvalid in Hspec. destruct Hspec as (_ & _ & -> & Hres).
  repeat split; [done|]. intros earlier (p1 & p2 & ->)%list_elem_of_split.
  rewrite <-app_assoc in Hev. cbn in Hev.
  pose proof (pollLoop_event _ _ _ _ _ _ Hev) as Hspec. cbn in Hspec.
  destruct (includes validStates earlier); [|done].
  destruct Hspec as (_ & _ & Hnil & _). by destruct p2.
Qed.



(** When the iterations from [i] on go on [n] times and the check of the
    one after them answers "cancelled", the loop throws there. *)
Lemma pollLoop_reaches n : forall fuel i timer,
  (forall j, j < n ->
     cancelled (w (i + j)) = false /\
     (exists status, answer (w (i + j)) = JobStatus status /\
                     pending C validStates status) /\
     (timer + Z.of_nat (S j) * interval <= timeout)%Z) ->
  cancelled (w (i + n)) = true ->
  n < fuel ->
  result (loop fuel i timer) = Threw TransformByQStoppedError /\
  queries (loop fuel i timer) = n /\
  exists pre, events (loop fuel i timer) = pre ++ [EvIsCancelled true].
Proof.
  induction n as [|n IH]; intros fuel i timer Hon Hc Hfuel;
    (destruct fuel as [|fuel]; [lia|]); cbn [pollLoop throwIfCancelled].
  { rewrite Nat.add_0_r in Hc. rewrite Hc. cbn.
    split; [done|split; [done|by exists []]]. }
  destruct (Hon 0 ltac:(lia)) as (Hc0 & (status & Ha & Hv & Hf) & Ht).
  rewrite Nat.add_0_r in Hc0, Ha. rewrite Hc0, Ha, Hv, Hf.
  assert (Hlt : (timeout <? timer + interval)%Z = false) by (apply Z.ltb_ge; lia).
  rewrite Hlt.
  destruct (IH fuel (S i) (timer + interval)%Z) as (Hres & Hq & pre & Hev).
  - intros j Hj. destruct (Hon (S j) ltac:(lia)) as (Hcj & Haj & Htj).
    replace (i + S j) with (S i + j) in Hcj, Haj by lia.
    split; [done|split; [done|]]. rewrite Nat2Z.inj_succ in Htj |- *. lia.
  - by replace (S i + n) with (i + S n) by lia.
  - lia.
  - unfold queries in *. cbn. rewrite Hres, Hq, Hev.
    split; [done|split; [done|]].
    by exists (EvIsCancelled false :: EvGetCodeTransformation jobId (JobStatus status) ::
               EvSleep (interval * 1000) :: pre).
Qed.

(** C4: every iteration starts with the cancellation check, before the status
    query: a run that starts makes the check of iteration 0 its first host
    call, and every status query comes right after a check that answered "not
    cancelled".  A check that answers "cancelled" ends the run with
    [TransformByQStoppedError] and no further host call.  When the check of
    iteration [n] (the one after [n] queries) answers "cancelled", the run
    makes at most [n] queries; and when the loop gets as far as iteration [n]
    and that check answers "cancelled", the run throws
    [TransformByQStoppedError], that check is its last host call and it has
    made exactly [n] queries. *)
Theorem poll_checks_cancellation_first fuel :
  (0 < fuel ->
   exists post, events (poll fuel jobId validStates) = EvIsCancelled (cancelled (w 0)) :: post) /\
  (forall pre a post,
     events (poll fuel jobId validStates) = pre ++ EvGetCodeTransformation jobId a :: post ->
     exists pre', pre = pre' ++ [EvIsCancelled false]) /\
  (forall pre post,
     events (poll fuel jobId validStates) = pre ++ EvIsCancelled true :: post ->
     post = [] /\ result (poll fuel jobId validStates) = Threw TransformByQStoppedError) /\
  (forall n, cancelled (w n) = true -> queries (poll fuel jobId validStates) <= n) /\
  (forall n,
     reaches C w validStates n -> cancelled (w n) = true -> n < fuel ->
     result (poll fuel jobId validStates) = Threw TransformByQStoppedError /\
     queries (poll fuel jobId validStates) = n /\
     exists pre, events (poll fuel jobId validStates) = pre ++ [EvIsCancelled true]).
Proof.
  split; [|split; [|split; [|split]]].
  - intros Hfuel. unfold pollTransformationJob.
    destruct fuel as [|fuel]; [lia|]. cbn [pollLoop throwIfCancelled].
    destruct (cancelled (w 0)); [by eauto|].
    destruct (answer (w 0)) as [reason|status]; [by eauto|].
    destruct (includes validStates status); [by eauto|].
    destruct (includes (failureStates C) status); [by eauto|].
    destruct (timeout <? 0 + interval)%Z; cbn; by eauto.
  - intros pre a post Hev. by destruct (pollLoop_event _ _ _ _ _ _ Hev) as (_ & ? & _).
  - intros pre post Hev. apply (pollLoop_event _ _ _ _ _ _ Hev).
  - intros n Hn. pose proof (pollLoop_cancelled fuel 0 0%Z n ltac:(lia) Hn).
    unfold pollTransformationJob. lia.
  - intros n Hreach Hn Hfuel. unfold pollTransformationJob.
    apply (pollLoop_reaches n fuel 0 0%Z); [|done..].
    intros j Hj. destruct (Hreach j Hj) as (Hc & Ha & Ht).
    split; [done|split; [done|]]. by rewrite Z.add_0_l.
Qed.

(** C9: membership in [validStates] is tested first: a queried status that
    is both a valid state and a failure state is returned, and the job-failed
    error is not thrown. *)
Theorem poll_valid_state_wins_over_failure fuel pre status post :
  events (poll fuel jobId validStates) = pre ++ queryOf status :: post ->
  includes validStates status = true ->
  includes (failureStates C) status = true ->
  result (poll fuel jobId validStates) = Returned status /\
  result (poll fuel jobId validStates) <> Threw jobFailed /\
  post = [].
Proof.
  intros Hev Hvalid _. pose proof (pollLoop_event _ _ _ _ _ _ Hev) as Hspec.
  cbn in Hspec. rewrite Hvalid in Hspec. destruct Hspec as (_ & _ & -> & Hres).
  unfold pollTransformationJob. rewrite Hres. by split; [|split].
Qed.

End PollProofs.

(** * Properties of [EnvironmentSettingsWizard.run] *)

Section WizardProofs.
Import Wizard.

Variable number : Type.
Variable strictNe : number -> number -> bool.

Local Abbreviation store := (gmap loc (object number)).

(** The two forms are different objects and each holds a storage object. *)
Definition wellFormed (h : store) (initState curr : loc) : Prop :=
  initState <> curr /\
  exists i f si sf,
    getForm h initState = Some i /\
    getForm h curr = Some f /\
    getStorage h (persistentStorage i) = Some si /\
    getStorage h (persistentStorage f) = Some sf.

Lemma getForm_Some (h : store) l f :
  getForm h l = Some f <-> h !! l = Some (Form f).
Proof. unfold getForm. destruct (h !! l) as [[]|]; split; intros ?; by simplify_eq. Qed.

Lemma getStorage_Some (h : store) l s :
  getStorage h l = Some s <-> h !! l = Some (Storage s).
Proof. unfold getStorage. destruct (h !! l) as [[]|]; split; intros ?; by simplify_eq. Qed.

Lemma fresh_lookup (h : store) : h !! fresh (dom h) = None.
Proof. apply not_elem_of_dom, is_fresh. Qed.

Lemma editItem_step (h : store) initState curr c :
  wellFormed h initState curr ->
  exists h',
    editItem h curr c = Some h' /\
    wellFormed h' initState curr /\
    (forall l, l <> curr -> is_Some (h !! l) -> h' !! l = h !! l).
Proof.
  intros (Hne & i & f & si & sf & Hi & Hf & Hsi & Hsf).
  unfold editItem. rewrite Hf. cbn.
  apply getForm_Some in Hi, Hf. apply getStorage_Some in Hsi, Hsf.
  assert (Hi_curr : persistentStorage i <> curr) by congruence.
  assert (Hf_curr : persistentStorage f <> curr) by congruence.
  pose proof (fresh_lookup h) as Hfresh.
  destruct c as [| |[r|]|[r|]|[r|]]; cbn;
    try (exists h; split; [done|]; split; [|done];
         split; [done|]; exists i, f, si, sf;
         by rewrite !getForm_Some, !getStorage_Some).
  - eexists; split; [done|]; split; [split; [done|]|].
    + eexists i, _, si, sf. rewrite !getForm_Some, !getStorage_Some. cbn.
      by rewrite lookup_insert_eq, !lookup_insert_ne.
    + intros l Hl _. by rewrite lookup_insert_ne.
  - eexists; split; [done|]; split; [split; [done|]|].
    + eexists i, _, si, sf. rewrite !getForm_Some, !getStorage_Some. cbn.
      by rewrite lookup_insert_eq, !lookup_insert_ne.
    + intros l Hl _. by rewrite lookup_insert_ne.
  - set (l' := fresh (dom h)) in *.
    assert (l' <> initState) by congruence.
    assert (l' <> curr) by congruence.
    assert (l' <> persistentStorage i) by congruence.
    eexists; split; [done|]; split; [split; [done|]|].
    + exists i, {| inactivityTimeoutMinutes := inactivityTimeoutMinutes f;
                   instanceType := instanceType f;
                   persistentStorage := l' |}, si, {| sizeInGiB := r |}.
      rewrite !getForm_Some, !getStorage_Some. cbn.
      rewrite lookup_insert_eq, !(lookup_insert_ne _ curr) by done.
      by rewrite lookup_insert_eq, !lookup_insert_ne.
    + intros l Hl [o Ho]. rewrite lookup_insert_ne by done.
      rewrite lookup_insert_ne; [done|congruence].
Qed.

Lemma menuLoop_frame choices : forall (h : store) initState curr,
  wellFormed h initState curr ->
  exists o,
    menuLoop strictNe h initState curr choices = Some o /\
    length (menus o) <= length choices /\
    (forall l, l <> curr -> is_Some (h !! l) -> final o !! l = h !! l).
Proof.
  induction choices as [|c choices IH]; intros h initState curr Hwf; cbn [menuLoop].
  { eexists. split; [done|]. split; [cbn; lia|done]. }
  pose proof Hwf as (Hne & i & f & si & sf & Hi & Hf & Hsi & Hsf).
  rewrite Hi, Hf. cbn. unfold diff. rewrite Hsi, Hsf. cbn.
  destruct (editItem_step h initState curr c Hwf) as (h' & Hedit & Hwf' & Hframe).
  destruct (IH h' initState curr Hwf') as (o & Ho & Hlen & Hframe').
  destruct c; try (eexists; split; [done|]; split; [cbn; lia|done]).
  all: rewrite Hedit; cbn; rewrite Ho; cbn.
  all: eexists; split; [done|]; split; [cbn; lia|]; cbn.
  all: intros l Hl Hsome; rewrite Hframe' by (by rewrite ?Hframe); by apply Hframe.
Qed.

(** C8: [run] ends (with the saved form, with [undefined], or waiting for
    the user), and when it does every object the store held before the call
    is as it was: the initial settings object has the same three fields, its
    nested object the same [sizeInGiB], whatever the user chose in the menus. *)
Theorem run_never_mutates_initState (h : store) initState choices i s :
  getForm h initState = Some i ->
  getStorage h (persistentStorage i) = Some s ->
  exists o,
    run strictNe h initState choices = Some o /\
    getForm (final o) initState = Some i /\
    getStorage (final o) (persistentStorage i) = Some s /\
    (forall l, is_Some (h !! l) -> final o !! l = h !! l).
Proof.
  intros Hi Hs. unfold run. rewrite Hi. cbn.
  pose proof (fresh_lookup h) as Hfresh. set (curr := fresh (dom h)) in *.
  apply getForm_Some in Hi. apply getStorage_Some in Hs.
  assert (Hne : initState <> curr) by congruence.
  assert (Hne' : persistentStorage i <> curr) by congruence.
  destruct (menuLoop_frame choices (<[curr := Form i]> h) initState curr)
    as (o & Ho & _ & Hframe).
  { split; [done|]. exists i, i, s, s. rewrite !getForm_Some, !getStorage_Some.
    by rewrite lookup_insert_eq, !lookup_insert_ne. }
  assert (Hold : forall l, is_Some (h !! l) -> final o !! l = h !! l).
  { intros l [x Hx]. assert (l <> curr) by congruence.
    rewrite Hframe by (by rewrite ?lookup_insert_ne; eauto). by rewrite lookup_insert_ne. }
  exists o. split; [done|]. rewrite !getForm_Some, !getStorage_Some.
  split; [|split; [|done]]; rewrite Hold; eauto.
Qed.

End WizardProofs.

(** * Properties of [uploadPayload] *)

Section UploadProofs.
Import Upload.

Variable sha256Base64 : bytes -> string.
Variable C : CodeWhispererConstants.

Lemma uploadArtifactToS3_headers (fs : fileSystem) fetchOk fileName resp content :
  fs !! fileName = Some content ->
  exists headers,
    uploadArtifactToS3 sha256Base64 fs fetchOk fileName resp =
      ([EvFetch "PUT" (uploadUrl resp) content headers],
       if fetchOk then inr tt else inl FetchError) /\
    headers !! "x-amz-checksum-sha256" = Some (sha256Base64 content) /\
    headers !! "Content-Type" = Some "application/zip".
Proof.
  intros Hfile. unfold uploadArtifactToS3, getSha256. rewrite Hfile.
  eexists. split; [reflexivity|].
  destruct (kmsKeyArn resp) as [[|a arn]|]; by simplify_map_eq.
Qed.

(** C7: [uploadPayload] first asks for the upload URL with the base64
    SHA-256 digest of the payload file as [contentChecksum], then sends one
    PUT request whose body is the payload file as it is read then and whose
    [x-amz-checksum-sha256] header is the digest of that body; when the file
    is the same at both reads, the header is exactly the [contentChecksum]. *)
Theorem uploadPayload_checksum_matches_upload
    (fs : fileSystem) (h : host) payloadFileName content content' response :
  fs !! payloadFileName = Some content ->
  createUploadUrl h = Some response ->
  filesAfterCreateUploadUrl h !! payloadFileName = Some content' ->
  exists request headers,
    (uploadPayload sha256Base64 C fs h payloadFileName).1 =
      [EvCreateUploadUrl request;
       EvFetch "PUT" (uploadUrl response) content' headers] /\
    contentChecksum request = sha256Base64 content /\
    reqContentChecksumType request = contentChecksumType C /\
    reqUploadIntent request = uploadIntent C /\
    headers !! "x-amz-checksum-sha256" = Some (sha256Base64 content') /\
    (content' = content ->
       headers !! "x-amz-checksum-sha256" = Some (contentChecksum request)) /\
    (uploadPayload sha256Base64 C fs h payloadFileName).2 =
      if fetchSettles h then inr (uploadId response) else inl FetchError.
Proof.
  intros Hfile Hresp Hfile'. unfold uploadPayload, getSha256. rewrite Hfile, Hresp.
  destruct (uploadArtifactToS3_headers _ (fetchSettles h) _ response _ Hfile')
    as (headers & -> & Hsum & _).
  eexists _, headers. cbn. split; [reflexivity|]. cbn.
  split; [done|]. split; [done|]. split; [done|]. split; [done|].
  split; [by intros <-|]. by destruct (fetchSettles h).
Qed.

End UploadProofs.

(** * Properties of [toString] *)

Lemma toString_inj (m n : N) : toString m = toString n -> m = n.
Proof.
  unfold toString. intros Heq.
  assert (Hd : N.to_uint m = N.to_uint n).
  { apply (f_equal NilEmpty.uint_of_string) in Heq.
    rewrite !NilEmpty.usu in Heq. congruence. }
  apply (f_equal N.of_uint) in Hd. by rewrite !DecimalN.Unsigned.of_to in Hd.
Qed.

Lemma append_inj_r (a x y : string) : a +:+ x = a +:+ y -> x = y.
Proof. induction a as [|c a IH]; cbn; [done|]. intros [=]. auto. Qed.

(** * Properties of [zipCode] *)

Section DirentInduction.
Import Zip.

Variable P : dirent -> Prop.
Hypothesis P_File : forall name content, P (File name content).
Hypothesis P_Directory : forall name entries, Forall P entries -> P (Directory name entries).

Fixpoint dirent_nested_ind (entry : dirent) : P entry :=
  match entry with
  | File name content => P_File name content
  | Directory name entries =>
    P_Directory name entries
      ((fix all (es : list dirent) : Forall P es :=
          match es with
          | [] => Forall_nil_2 _
          | e :: es' => Forall_cons_2 _ _ _ (dirent_nested_ind e) (all es')
          end) entries)
  end.

End DirentInduction.

Section ZipProofs.
Import Zip.

Variable manifestJson : string -> bytes.
Variable C : CodeWhispererConstants.

(** A file of a listing, moved below [dir]. *)
Definition below (dir : path) (file : path * bytes) : path * bytes :=
  (dir ++ file.1, file.2).

Lemma relative_below (dir rel : path) : relative dir (dir ++ rel) = rel.
Proof.
  induction dir as [|d dir IH]; cbn; [by destruct rel|].
  by rewrite String.eqb_refl.
Qed.

Lemma filesOf_below entry : forall dir,
  filesOf dir entry = below dir <$> filesOf [] entry.
Proof.
  induction entry as [name content|name entries IH] using dirent_nested_ind;
    intros dir; cbn [filesOf]; [done|].
  destruct (negb (name =? "target")%string); [|done].
  induction IH as [|e es He _ IHes]; cbn; [done|].
  rewrite fmap_app, IHes. f_equal.
  rewrite (He (dir ++ [name])), (He [name]), <-list_fmap_compose.
  apply list_fmap_ext. intros _ [p c] _. unfold below. cbn. by rewrite <-app_assoc.
Qed.

Lemma filesOf_named entry : forall dir,
  Forall (fun file => exists rel name, file.1 = dir ++ rel ++ [name]) (filesOf dir entry).
Proof.
  induction entry as [name content|name entries IH] using dirent_nested_ind;
    intros dir; cbn [filesOf].
  { apply Forall_singleton. by exists [], name. }
  destruct (negb (name =? "target")%string); [|by apply Forall_nil].
  induction IH as [|e es He _ IHes]; cbn; [by apply Forall_nil|].
  apply Forall_app. split; [|done].
  eapply Forall_impl; [apply He|]. intros [p c] (rel & n & ->). cbn.
  exists (name :: rel), n. by rewrite <-app_assoc.
Qed.

Lemma getFilesRecursively_below dir entries :
  getFilesRecursively dir entries = below dir <$> getFilesRecursively [] entries.
Proof.
  unfold getFilesRecursively. induction entries as [|e es IH]; cbn; [done|].
  by rewrite fmap_app, IH, (filesOf_below e dir).
Qed.

Lemma getFilesRecursively_named entries :
  Forall (fun file => exists rel name, file.1 = rel ++ [name]) (getFilesRecursively [] entries).
Proof.
  unfold getFilesRecursively. induction entries as [|e es IH]; cbn; [by apply Forall_nil|].
  apply Forall_app. split; [|done]. apply (filesOf_named e []).
Qed.

Lemma addLocalFile_below (top : string) dir entries :
  (fun file =>
     addLocalFile file (dirname (join [top] (relative dir file.1)))) <$>
    getFilesRecursively dir entries =
  entryUnder top <$> getFilesRecursively [] entries.
Proof.
  rewrite getFilesRecursively_below, <-list_fmap_compose.
  apply Forall_fmap_ext_1. eapply Forall_impl; [apply getFilesRecursively_named|].
  intros [p c] (rel & name & Hp). cbn [fst] in Hp. subst p.
  unfold compose, below, addLocalFile, entryUnder, join, dirname, basename.
  cbn [fst snd]. rewrite relative_below.
  change ([top] ++ rel ++ [name]) with ((top :: rel) ++ [name]).
  by rewrite removelast_last, (app_assoc dir), last_last.
Qed.

Lemma zipCode_entries tmpdir now modulePath project dependencies :
  zipCode manifestJson C tmpdir now modulePath project (Some dependencies) =
    Some ({| entryName := "manifest.json";
             data := manifestJson (dependencyRoot C now +:+ "/") |} ::
          (entryUnder "sources" <$> getFilesRecursively [] project) ++
          (entryUnder (dependencyRoot C now) <$> getFilesRecursively [] dependencies)).
Proof.
  unfold zipCode, getProjectDependencies.
  rewrite bool_decide_true by eauto. cbv beta iota zeta. cbn [default from_option].
  by rewrite !addLocalFile_below.
Qed.

(** C6, amended: a run that reads [now] from the clock and whose Maven
    command succeeds writes [manifest.json], one entry per source file under
    [sources/] and one entry per dependency file under the dependency
    folder name, which ends in [now].  For the same source files and the same
    resolved dependencies two runs agree on the source entries and on the
    bytes and the root-relative paths of the dependency entries, wherever the
    folders are; the dependency folder name, and with it [manifest.json] and
    the names of the dependency entries, is the same exactly when both runs
    read the same clock value. *)
Theorem zipCode_deterministic_up_to_dependency_root
    tmpdir1 tmpdir2 modulePath1 modulePath2 project dependencies now1 now2 :
  let archive now :=
    {| entryName := "manifest.json";
       data := manifestJson (dependencyRoot C now +:+ "/") |} ::
    (entryUnder "sources" <$> getFilesRecursively [] project) ++
    (entryUnder (dependencyRoot C now) <$> getFilesRecursively [] dependencies) in
  zipCode manifestJson C tmpdir1 now1 modulePath1 project (Some dependencies) =
    Some (archive now1) /\
  zipCode manifestJson C tmpdir2 now2 modulePath2 project (Some dependencies) =
    Some (archive now2) /\
  (dependencyRoot C now1 = dependencyRoot C now2 <-> now1 = now2).
Proof.
  intros archive. split; [apply zipCode_entries|]. split; [apply zipCode_entries|].
  split; [|by intros ->]. unfold dependencyRoot.
  by intros ?%append_inj_r%toString_inj.
Qed.

End ZipProofs.

(** C6, counterexample: the same project and the same resolved dependencies,
    packaged by two runs one millisecond apart, give archives whose entry
    names differ. *)
Lemma zipCode_differs_between_runs :
  exists a1 a2,
    Samples.zipAt 1700000000000%N = Some a1 /\
    Samples.zipAt 1700000000001%N = Some a2 /\
    Zip.entryName <$> a1 <> Zip.entryName <$> a2 /\
    a1 <> a2.
Proof.
  eexists _, _. split; [vm_compute; reflexivity|]. split; [vm_compute; reflexivity|].
  split; intros Heq; vm_compute in Heq; discriminate Heq.
Qed.

(** * Properties of [CawsAuthenticationProvider] *)

Section CawsProofs.
Import Caws.

Lemma sessionId_inj (m n : N) : sessionId m = sessionId n -> m = n.
Proof. unfold sessionId. by intros ?%append_inj_r%toString_inj. Qed.

(** Every key of the sessions map was made from a counter value already
    used. *)
Definition issued (p : provider) : Prop :=
  forall k s, sessions p !! k = Some s ->
    exists n, (1 <= n <= sessionCounter p)%N /\ k = sessionId n.

Lemma createSession_Some getUser p account s p' :
  createSession getUser p account = (Some s, p') ->
  id s = sessionId (sessionCounter p + 1) /\
  sessionCounter p' = (sessionCounter p + 1)%N /\
  sessions p' = <[id s := s]> (sessions p).
Proof.
  unfold createSession, login.
  destruct (getSecret _ _ ≫= _) as [[cookie username]|]; intros [= <- <-]; by cbn.
Qed.

Lemma createSession_None getUser p account p' :
  createSession getUser p account = (None, p') ->
  sessionCounter p' = sessionCounter p /\ sessions p' = sessions p.
Proof.
  unfold createSession, login.
  destruct (getSecret _ _ ≫= _) as [[cookie username]|]; intros [= <-]; by cbn.
Qed.

Lemma createAccount_sessions getUser p cookie :
  sessionCounter (createAccount getUser p cookie).2 = sessionCounter p /\
  sessions (createAccount getUser p cookie).2 = sessions p.
Proof. unfold createAccount. by destruct (getUser cookie). Qed.

Lemma issued_fresh p n :
  issued p -> (sessionCounter p < n)%N -> sessions p !! sessionId n = None.
Proof.
  intros Hp Hn. destruct (sessions p !! sessionId n) as [s|] eqn:Hs; [|done].
  destruct (Hp _ _ Hs) as (m & Hm & ->%sessionId_inj). lia.
Qed.

Lemma runCalls_issued calls : forall p p' created,
  runCalls calls p = (p', created) ->
  issued p ->
  issued p' /\
  sessionCounter p' = (sessionCounter p + N.of_nat (length created))%N /\
  (forall k s, created !! k = Some s ->
     id s = sessionId (sessionCounter p + 1 + N.of_nat k)).
Proof.
  induction calls as [|c calls IH]; intros p p' created; cbn [runCalls].
  { intros [= <- <-] Hp. split; [done|]. split; [cbn; lia|done]. }
  destruct c as [getUser cookie|getUser account|session].
  - intros Hrun Hp.
    destruct (createAccount_sessions getUser p cookie) as [Hc Hs].
    destruct (IH _ _ _ Hrun) as (Hp' & Hcount & Hids).
    { intros k s. rewrite Hs, Hc. apply Hp. }
    rewrite Hc in Hcount, Hids. done.
  - destruct (createSession getUser p account) as [[s|] p1] eqn:Hcreate;
      destruct (runCalls calls p1) as [p2 more] eqn:Hrun; intros [= <- <-] Hp.
    + destruct (createSession_Some _ _ _ _ _ Hcreate) as (Hid & Hc & Hs).
      destruct (IH _ _ _ Hrun) as (Hp' & Hcount & Hids).
      { intros k s'. rewrite Hs, Hc, lookup_insert. case_decide as Hk.
        - intros _. exists (sessionCounter p + 1)%N. split; [lia|]. by rewrite <-Hk.
        - intros (n & Hn & ->)%Hp. exists n. split; [lia|done]. }
      split; [done|]. split; [cbn [length]; lia|].
      intros [|k] s'; cbn.
      * intros [= <-]. rewrite Hid. f_equal. lia.
      * intros ->%Hids. f_equal. lia.
    + destruct (createSession_None _ _ _ _ Hcreate) as (Hc & Hs).
      destruct (IH _ _ _ Hrun) as (Hp' & Hcount & Hids).
      { intros k s'. rewrite Hs, Hc. apply Hp. }
      rewrite Hc in Hcount, Hids. done.
  - intros Hrun Hp.
    destruct (IH _ _ _ Hrun) as (Hp' & Hcount & Hids); [|done].
    intros k s. cbn. rewrite lookup_delete. case_decide; [done|]. apply Hp.
Qed.

(** C10: on a provider that has served any sequence of calls since it was
    constructed, the sessions [createSession] returned carry the ids
    [session-1], [session-2], ... in the order they were created, so no two of
    them share an id; and one more [createSession] that succeeds takes the
    next counter value, which is greater than the counter before, names its
    session by it, and puts it in the sessions map under a key the map did
    not hold, so that every session already in the map stays. *)
Theorem createSession_ids_are_fresh st calls p created :
  runCalls calls (newProvider st) = (p, created) ->
  sessionCounter p = N.of_nat (length created) /\
  (forall k s, created !! k = Some s -> id s = sessionId (N.of_nat (S k))) /\
  NoDup (id <$> created) /\
  (forall getUser account s p',
     createSession getUser p account = (Some s, p') ->
     id s = sessionId (sessionCounter p') /\
     (sessionCounter p < sessionCounter p')%N /\
     sessions p !! id s = None /\
     (id s ∉ (id <$> created)) /\
     sessions p' = <[id s := s]> (sessions p) /\
     (forall k s', sessions p !! k = Some s' -> sessions p' !! k = Some s')).
Proof.
  intros Hrun. destruct (runCalls_issued _ _ _ _ Hrun) as (Hp & Hcount & Hids).
  { intros k s. cbn. by rewrite lookup_empty. }
  cbn in Hcount, Hids.
  assert (Hids' : forall k s, created !! k = Some s -> id s = sessionId (N.of_nat (S k))).
  { intros k s ->%Hids. f_equal. lia. }
  split; [lia|]. split; [done|]. split.
  { apply NoDup_alt. intros i j x.
    rewrite !list_lookup_fmap, !fmap_Some.
    intros (s1 & H1%Hids' & ->) (s2 & H2%Hids' & Heq).
    rewrite H1, H2 in Heq. apply sessionId_inj in Heq. lia. }
  intros getUser account s p' (Hid & Hc & Hs)%createSession_Some.
  assert (Hfresh : sessions p !! id s = None).
  { rewrite Hid. apply issued_fresh; [done|lia]. }
  split; [by rewrite Hc|]. split; [lia|]. split; [done|]. split.
  { rewrite list_elem_of_fmap. intros (s' & Heq & (k & Hk)%list_elem_of_lookup).
    pose proof (lookup_lt_Some _ _ _ Hk) as Hlt.
    apply Hids' in Hk. rewrite Hid, Hk in Heq. apply sessionId_inj in Heq. lia. }
  split; [done|]. intros k s' Hk. rewrite Hs, lookup_insert_ne; [done|congruence].
Qed.

End CawsProofs.

(** * The theorems at work on the sample values *)

(** The job is planned at the second query: that query is the last host
    call and its status is returned. *)
Lemma poll_returns_first_valid_status_witness :
  Poll.events (Poll.pollTransformationJob Samples.constants Samples.plannedWorld 5
                 "job-1" ["PLANNED"]) =
    [Poll.EvIsCancelled false;
     Poll.EvGetCodeTransformation "job-1" (Poll.JobStatus "TRANSFORMING");
     Poll.EvSleep 10000;
     Poll.EvIsCancelled false] ++
    Poll.EvGetCodeTransformation "job-1" (Poll.JobStatus "PLANNED") :: [] /\
  includes ["PLANNED"] "PLANNED" = true /\
  Poll.result (Poll.pollTransformationJob Samples.constants Samples.plannedWorld 5
                 "job-1" ["PLANNED"]) = Poll.Returned "PLANNED".
Proof.
  split; [reflexivity|]. split; [reflexivity|].
  exact (proj1 (proj2 (poll_returns_first_valid_status
    Samples.constants Samples.plannedWorld "job-1" ["PLANNED"] 5
    [Poll.EvIsCancelled false;
     Poll.EvGetCodeTransformation "job-1" (Poll.JobStatus "TRANSFORMING");
     Poll.EvSleep 10000;
     Poll.EvIsCancelled false]
    "PLANNED" [] eq_refl eq_refl))).
Defined.



(** The transformation is cancelled while the caller sleeps after the second
    query: the loop gets as far as iteration 2, whose check ends the run. *)
Lemma poll_checks_cancellation_first_witness :
  Poll.reaches Samples.constants Samples.cancelledWorld ["PLANNED"] 2 /\
  Poll.cancelled (Samples.cancelledWorld 2) = true /\
  Poll.result (Poll.pollTransformationJob Samples.constants Samples.cancelledWorld 7
                 "job-1" ["PLANNED"]) = Poll.Threw Poll.TransformByQStoppedError /\
  Poll.queries (Poll.pollTransformationJob Samples.constants Samples.cancelledWorld 7
                  "job-1" ["PLANNED"]) = 2.
Proof.
  assert (Hreach : Poll.reaches Samples.constants Samples.cancelledWorld ["PLANNED"] 2).
  { intros j Hj. destruct j as [|[|j]]; [| |lia].
    - split; [reflexivity|]. split; [|discriminate].
      exists "TRANSFORMING". split; [reflexivity|]. split; reflexivity.
    - split; [reflexivity|]. split; [|discriminate].
      exists "TRANSFORMING". split; [reflexivity|]. split; reflexivity. }
  split; [exact Hreach|]. split; [reflexivity|].
  pose proof (proj2 (proj2 (proj2 (proj2 (poll_checks_cancellation_first
    Samples.constants Samples.cancelledWorld "job-1" ["PLANNED"] 7)))) 2
    Hreach eq_refl ltac:(lia)) as (Hres & Hq & _).
  split; [exact Hres|exact Hq].
Defined.

(** The bound is reached when the job stays pending. *)
Example poll_bound_is_reached :
  Poll.queries (Poll.pollTransformationJob Samples.constants Samples.pendingWorld 7
                  "job-1" ["PLANNED"]) = 3.
Proof. reflexivity. Qed.

(** A caller that waits for [STOPPED], which is a failure state too, gets it
    back. *)
Lemma poll_valid_state_wins_over_failure_witness :
  includes ["STOPPED"] "STOPPED" = true /\
  includes (failureStates Samples.constants) "STOPPED" = true /\
  Poll.result (Poll.pollTransformationJob Samples.constants Samples.stoppedWorld 7
                 "job-1" ["STOPPED"]) = Poll.Returned "STOPPED".
Proof.
  split; [reflexivity|]. split; [reflexivity|].
  exact (proj1 (poll_valid_state_wins_over_failure
    Samples.constants Samples.stoppedWorld "job-1" ["STOPPED"] 7
    [Poll.EvIsCancelled false] "STOPPED" [] eq_refl eq_refl eq_refl)).
Defined.

(** The cancellation seen after two queries ends the run there. *)
Example poll_cancelled_after_two_queries :
  Poll.queries (Poll.pollTransformationJob Samples.constants Samples.cancelledWorld 7
                  "job-1" ["PLANNED"]) = 2 /\
  Poll.result (Poll.pollTransformationJob Samples.constants Samples.cancelledWorld 7
                 "job-1" ["PLANNED"]) = Poll.Threw Poll.TransformByQStoppedError.
Proof. by split. Qed.

(** The payload is not touched during the upload: the digest sent with the
    request for the URL is the digest sent with the PUT request. *)
Lemma uploadPayload_checksum_matches_upload_witness :
  Samples.files !! Samples.payload = Some [x50; x4b; x03; x04] /\
  Upload.createUploadUrl Samples.uploadHost = Some Samples.uploadResponse /\
  Upload.filesAfterCreateUploadUrl Samples.uploadHost !! Samples.payload =
    Some [x50; x4b; x03; x04] /\
  exists request headers,
    (Upload.uploadPayload Samples.digest Samples.constants Samples.files
       Samples.uploadHost Samples.payload).1 =
      [Upload.EvCreateUploadUrl request;
       Upload.EvFetch "PUT" "https://bucket.example/upload-1" [x50; x4b; x03; x04] headers] /\
    headers !! "x-amz-checksum-sha256" = Some (Upload.contentChecksum request).
Proof.
  split; [reflexivity|]. split; [reflexivity|]. split; [reflexivity|].
  destruct (uploadPayload_checksum_matches_upload Samples.digest Samples.constants
              Samples.files Samples.uploadHost Samples.payload
              [x50; x4b; x03; x04] [x50; x4b; x03; x04] Samples.uploadResponse
              eq_refl eq_refl eq_refl)
    as (request & headers & Hev & _ & _ & _ & _ & Hsame & _).
  exists request, headers. split; [exact Hev|exact (Hsame eq_refl)].
Defined.

(** The user changes the storage size and the compute size and saves: the
    initial form and its storage object are as before. *)
Lemma run_never_mutates_initState_witness :
  Wizard.getForm Samples.settingsStore 1%positive = Some Samples.initForm /\
  Wizard.getStorage Samples.settingsStore 2%positive = Some Samples.initStorage /\
  exists o,
    Wizard.run Samples.strictNe Samples.settingsStore 1%positive Samples.edits = Some o /\
    Wizard.getForm (Wizard.final o) 1%positive = Some Samples.initForm /\
    Wizard.getStorage (Wizard.final o) 2%positive = Some Samples.initStorage.
Proof.
  split; [reflexivity|]. split; [reflexivity|].
  destruct (run_never_mutates_initState Z Samples.strictNe Samples.settingsStore
              1%positive Samples.edits Samples.initForm Samples.initStorage
              eq_refl eq_refl)
    as (o & Hrun & Hform & Hstorage & _).
  exists o. split; [exact Hrun|]. split; [exact Hform|exact Hstorage].
Defined.

(** What that run saves: a form of its own, with a storage object of its
    own. *)
Example run_saves_the_edited_copy :
  (fun o => (Wizard.returned o,
             Wizard.getForm (Wizard.final o) 3%positive,
             Wizard.getStorage (Wizard.final o) 4%positive)) <$>
    Wizard.run Samples.strictNe Samples.settingsStore 1%positive Samples.edits =
  Some (Wizard.Saved 3%positive,
        Some {| Wizard.inactivityTimeoutMinutes := 15%Z;
                Wizard.instanceType := "mde.large";
                Wizard.persistentStorage := 4%positive |},
        Some {| Wizard.sizeInGiB := 32%Z |}).
Proof. vm_compute. reflexivity. Qed.

(** Without an edit of the storage size the saved form holds the storage
    object of the initial form itself. *)
Example run_shares_the_storage_object :
  (fun o => Wizard.persistentStorage <$> Wizard.getForm (Wizard.final o) 3%positive) <$>
    Wizard.run Samples.strictNe Samples.settingsStore 1%positive
      [Wizard.EditComputeSize (Some "mde.large"); Wizard.SaveSettings] =
  Some (Some 2%positive).
Proof. vm_compute. reflexivity. Qed.

(** Two sessions are created (the login of [bob] fails), the first is
    deleted, its id is not given again. *)
Lemma createSession_ids_are_fresh_witness :
  Caws.runCalls Samples.calls (Caws.newProvider Samples.cawsStorage) =
    ((Caws.runCalls Samples.calls (Caws.newProvider Samples.cawsStorage)).1,
     (Caws.runCalls Samples.calls (Caws.newProvider Samples.cawsStorage)).2) /\
  Caws.id <$> (Caws.runCalls Samples.calls (Caws.newProvider Samples.cawsStorage)).2 =
    ["session-1"; "session-2"] /\
  NoDup (Caws.id <$> (Caws.runCalls Samples.calls (Caws.newProvider Samples.cawsStorage)).2).
Proof.
  split; [reflexivity|]. split; [reflexivity|].
  exact (proj1 (proj2 (proj2 (createSession_ids_are_fresh
    Samples.cawsStorage Samples.calls _ _ eq_refl)))).
Defined.

(** * How a polling run ends, and how long it waits *)

Section PollEnds.
Import Poll PollTrace.

Variable C : CodeWhispererConstants.
Variable w : world.
Variable jobId : string.
Variable validStates : list string.

Local Abbreviation interval := (transformationJobPollingIntervalSeconds C).
Local Abbreviation timeout := (transformationJobTimeoutSeconds C).
Local Abbreviation loop := (pollLoop C w jobId validStates).
Local Abbreviation poll := (pollTransformationJob C w).
Local Abbreviation queryOf status := (EvGetCodeTransformation jobId (JobStatus status)).

(** What the result of a run says about its last host call. *)
Definition endsWith (r : run) : Prop :=
  match result r with
  | Returned status =>
      includes validStates status = true /\
      exists pre, events r = pre ++ [queryOf status]
  | Threw TransformByQStoppedError =>
      exists pre, events r = pre ++ [EvIsCancelled true]
  | Threw (HostError reason) =>
      exists pre, events r = pre ++ [EvGetCodeTransformation jobId (Rejected reason)]
  | Threw (Error message) =>
      (message = "Job failed, not going to retrieve plan" /\
       exists pre status,
         events r = pre ++ [queryOf status] /\
         includes validStates status = false /\
         includes (failureStates C) status = true) \/
      (message = "Transform by Q timed out" /\
       exists pre, events r = pre ++ [EvSleep (interval * 1000)])
  | OutOfFuel => True
  end.

Lemma endsWith_emit a b c r :
  endsWith r -> endsWith (emit [a; b; c] r).
Proof.
  unfold endsWith. cbn [result emit].
  destruct (result r) as [status|[|message|reason]|]; cbn [events emit].
  - intros (Hv & pre & ->). split; [done|]. by exists (a :: b :: c :: pre).
  - intros (pre & ->). by exists (a :: b :: c :: pre).
  - intros [(Hm & pre & status & -> & Hv & Hf)|(Hm & pre & ->)]; [left|right];
      (split; [done|]).
    + by exists (a :: b :: c :: pre), status.
    + by exists (a :: b :: c :: pre).
  - intros (pre & ->). by exists (a :: b :: c :: pre).
  - done.
Qed.

Lemma pollLoop_endsWith fuel : forall i timer, endsWith (loop fuel i timer).
Proof.
  induction fuel as [|fuel IH]; intros i timer; cbn [pollLoop throwIfCancelled]; [done|].
  destruct (cancelled (w i)); [by exists []|].
  destruct (answer (w i)) as [reason|status]; [by exists [EvIsCancelled false]|].
  destruct (includes validStates status) eqn:Hv.
  { split; [done|]. by exists [EvIsCancelled false]. }
  destruct (includes (failureStates C) status) eqn:Hf.
  { left. split; [done|]. by exists [EvIsCancelled false], status. }
  destruct (timeout <? timer + interval)%Z.
  { right. split; [done|]. by exists [EvIsCancelled false; queryOf status]. }
  apply endsWith_emit, IH.
Qed.

(** The time slept never brings the timer more than one interval past the
    time-out. *)
Lemma pollLoop_totalSleep fuel : forall i timer,
  (0 <= interval)%Z -> (timer <= timeout)%Z ->
  (timer * 1000 + totalSleep (events (loop fuel i timer)) <= (timeout + interval) * 1000)%Z.
Proof.
  induction fuel as [|fuel IH]; intros i timer Hi Ht; cbn [pollLoop throwIfCancelled];
    [cbn; lia|].
  destruct (cancelled (w i)); [cbn; lia|].
  destruct (answer (w i)) as [reason|status]; [cbn; lia|].
  destruct (includes validStates status); [cbn; lia|].
  destruct (includes (failureStates C) status); [cbn; lia|].
  destruct (timeout <? timer + interval)%Z eqn:Hlt.
  - cbn. lia.
  - apply Z.ltb_ge in Hlt. cbn [throwIfCancelled events emit app totalSleep].
    specialize (IH (S i) (timer + interval)%Z Hi Hlt). lia.
Qed.

(** X1: a status [pollTransformationJob] returns is a member of
    [validStates], and it is the status the last host call of the run, a
    status query, saw. *)
Theorem poll_returns_only_valid_status fuel status :
  result (poll fuel jobId validStates) = Returned status ->
  includes validStates status = true /\
  exists pre, events (poll fuel jobId validStates) = pre ++ [queryOf status].
Proof.
  intros Hres. pose proof (pollLoop_endsWith fuel 0 0%Z) as Hend.
  unfold endsWith in Hend. unfold pollTransformationJob in Hres |- *.
  by rewrite Hres in Hend.
Qed.

(** X2: the job-failed error is thrown only right after a status query that
    saw a status in [failureStates] that is not in [validStates]. *)
Theorem poll_job_failed_only_on_failure_state fuel :
  result (poll fuel jobId validStates) = Threw jobFailed ->
  exists pre status,
    events (poll fuel jobId validStates) = pre ++ [queryOf status] /\
    includes validStates status = false /\
    includes (failureStates C) status = true.
Proof.
  intros Hres. pose proof (pollLoop_endsWith fuel 0 0%Z) as Hend.
  unfold endsWith in Hend. unfold pollTransformationJob in Hres |- *.
  rewrite Hres in Hend. by destruct Hend as [[_ Hend]|[[=] _]].
Qed.

(** X3: a status query the service rejects is not retried: it is the last
    host call of the run, which throws the rejection; and a run throws a
    rejection only so. *)
Theorem poll_rejected_query_is_not_retried fuel pre reason post :
  events (pollTransformationJob C w fuel jobId validStates) =
    pre ++ EvGetCodeTransformation jobId (Rejected reason) :: post ->
  post = [] /\
  result (pollTransformationJob C w fuel jobId validStates) = Threw (HostError reason) /\
  (forall other,
     result (pollTransformationJob C w fuel jobId validStates) = Threw (HostError other) ->
     other = reason).
Proof.
  intros Hev. pose proof (pollLoop_event _ _ _ _ _ _ _ _ _ _ Hev) as (_ & _ & -> & Hres).
  split; [done|]. split; [done|]. intros other Hother.
  unfold pollTransformationJob in Hother. congruence.
Qed.

(** X4: with a non-negative polling interval and a non-negative time-out,
    the time a run spends sleeping is at most the time-out plus one polling
    interval. *)
Theorem poll_total_sleep_bounded fuel :
  (0 <= interval)%Z -> (0 <= timeout)%Z ->
  (totalSleep (events (poll fuel jobId validStates)) <= (timeout + interval) * 1000)%Z.
Proof.
  intros Hi Ht. pose proof (pollLoop_totalSleep fuel 0 0%Z Hi Ht).
  unfold pollTransformationJob. lia.
Qed.

Lemma pollLoop_counts fuel : forall i timer,
  let es := events (loop fuel i timer) in
  countEvents isSleep es <= countEvents isQuery es /\
  countEvents isQuery es <= countEvents isCheck es /\
  countEvents isCheck es <= countEvents isSleep es + 1.
Proof.
  induction fuel as [|fuel IH]; intros i timer; cbn [pollLoop throwIfCancelled];
    [cbn; lia|].
  destruct (cancelled (w i)); [cbn; lia|].
  destruct (answer (w i)) as [reason|status]; [cbn; lia|].
  destruct (includes validStates status); [cbn; lia|].
  destruct (includes (failureStates C) status); [cbn; lia|].
  destruct (timeout <? timer + interval)%Z; [cbn; lia|].
  specialize (IH (S i) (timer + interval)%Z). cbn in IH |- *. lia.
Qed.

(** X5: in every run each status query follows a cancellation check of its
    own and each sleep follows a status query of its own: there are at most
    as many sleeps as queries, at most as many queries as checks, and at most
    one check more than sleeps. *)
Theorem poll_calls_are_paired fuel :
  countEvents isSleep (events (poll fuel jobId validStates)) <=
    queries (poll fuel jobId validStates) /\
  queries (poll fuel jobId validStates) <=
    countEvents isCheck (events (poll fuel jobId validStates)) /\
  countEvents isCheck (events (poll fuel jobId validStates)) <=
    countEvents isSleep (events (poll fuel jobId validStates)) + 1.
Proof. apply (pollLoop_counts fuel 0 0%Z). Qed.

(** A run throws a rejection only when a status query was rejected. *)
Lemma pollLoop_hostError fuel : forall i timer reason,
  result (loop fuel i timer) = Threw (HostError reason) ->
  exists k, answer (w k) = Rejected reason.
Proof.
  induction fuel as [|fuel IH]; intros i timer reason; cbn [pollLoop throwIfCancelled];
    [done|].
  destruct (cancelled (w i)); [done|].
  destruct (answer (w i)) as [reason'|status] eqn:Ha.
  { intros [= ->]. by exists i. }
  destruct (includes validStates status); [done|].
  destruct (includes (failureStates C) status); [done|].
  destruct (timeout <? timer + interval)%Z; [done|].
  cbn [result emit]. apply IH.
Qed.

(** C5: with a positive polling interval and a non-negative time-out, a run
    with at least [timeout / interval + 1] units of fuel ends in one of these
    ways, and in no other: it returns a status of [validStates], the one its
    last host call, a status query, saw; it throws [TransformByQStoppedError]
    right after a check that answered "cancelled"; it throws the job-failed
    error right after a query that saw a failure state that is not valid; it
    throws the time-out error right after a sleep; or a status query did not
    return but was rejected, and the run throws that rejection.  The run
    makes at most [timeout / interval + 1] status queries, and more fuel
    changes nothing. *)
Theorem poll_terminates_within_bound fuel :
  (0 < interval)%Z -> (0 <= timeout)%Z ->
  Z.to_nat (timeout / interval) + 1 <= fuel ->
  ((exists status pre,
      result (poll fuel jobId validStates) = Returned status /\
      includes validStates status = true /\
      events (poll fuel jobId validStates) = pre ++ [queryOf status]) \/
   (exists pre,
      result (poll fuel jobId validStates) = Threw TransformByQStoppedError /\
      events (poll fuel jobId validStates) = pre ++ [EvIsCancelled true]) \/
   (exists status pre,
      result (poll fuel jobId validStates) = Threw jobFailed /\
      includes validStates status = false /\
      includes (failureStates C) status = true /\
      events (poll fuel jobId validStates) = pre ++ [queryOf status]) \/
   (exists pre,
      result (poll fuel jobId validStates) = Threw timedOut /\
      events (poll fuel jobId validStates) = pre ++ [EvSleep (interval * 1000)]) \/
   (exists reason pre k,
      result (poll fuel jobId validStates) = Threw (HostError reason) /\
      answer (w k) = Rejected reason /\
      events (poll fuel jobId validStates) =
        pre ++ [EvGetCodeTransformation jobId (Rejected reason)])) /\
  (Z.of_nat (queries (poll fuel jobId validStates)) <= timeout / interval + 1)%Z /\
  poll fuel jobId validStates =
    poll (Z.to_nat (timeout / interval) + 1) jobId validStates.
Proof.
  intros Hi Ht Hfuel. unfold pollTransformationJob.
  destruct (pollLoop_bounded C w jobId validStates fuel 0 0%Z Hi Ht) as (Hres & Hq & Heq).
  { unfold iterationsLeft. by rewrite Z.sub_0_r. }
  unfold iterationsLeft in Hq, Heq. rewrite Z.sub_0_r in Hq, Heq.
  split; [|split; [pose proof (Z.div_pos timeout interval); lia|done]].
  pose proof (pollLoop_endsWith fuel 0 0%Z) as Hend.
  pose proof (pollLoop_hostError fuel 0 0%Z) as Hhost.
  unfold endsWith in Hend.
  destruct (result (loop fuel 0 0%Z)) as [status|[|message|reason]|] eqn:Hr.
  - destruct Hend as (Hv & pre & Hev). left. by exists status, pre.
  - destruct Hend as (pre & Hev). right; left. by exists pre.
  - destruct Hend as [(-> & pre & status & Hev & Hv & Hf)|(-> & pre & Hev)].
    + right; right; left. by exists status, pre.
    + right; right; right; left. by exists pre.
  - destruct Hend as (pre & Hev). destruct (Hhost reason eq_refl) as [k Hk].
    right; right; right; right. by exists reason, pre, k.
  - done.
Qed.

End PollEnds.

(** With an interval of 10 and a time-out of 25 at most 25 / 10 + 1 = 3
    queries are made, whatever the fuel from 3 on; the job that stays pending
    makes them all and the run ends with the time-out error. *)
Lemma poll_terminates_within_bound_witness :
  (0 < transformationJobPollingIntervalSeconds Samples.constants)%Z /\
  (0 <= transformationJobTimeoutSeconds Samples.constants)%Z /\
  (Z.of_nat (Poll.queries (Poll.pollTransformationJob Samples.constants
                             Samples.pendingWorld 7 "job-1" ["PLANNED"])) <= 3)%Z /\
  Poll.pollTransformationJob Samples.constants Samples.pendingWorld 7 "job-1" ["PLANNED"] =
    Poll.pollTransformationJob Samples.constants Samples.pendingWorld 3 "job-1" ["PLANNED"] /\
  Poll.result (Poll.pollTransformationJob Samples.constants Samples.pendingWorld 7
                 "job-1" ["PLANNED"]) = Poll.Threw Poll.timedOut.
Proof.
  split; [reflexivity|]. split; [discriminate|].
  destruct (poll_terminates_within_bound
    Samples.constants Samples.pendingWorld "job-1" ["PLANNED"] 7
    eq_refl ltac:(discriminate) ltac:(vm_compute; lia)) as (_ & Hq & Heq).
  split; [exact Hq|]. split; [exact Heq|reflexivity].
Defined.

(** * What an upload sends *)

Section UploadSends.
Import Upload.

Variable sha256Base64 : bytes -> string.
Variable C : CodeWhispererConstants.

(** X6: the PUT request of [uploadArtifactToS3] always declares
    [application/zip]; it carries the two server-side-encryption headers,
    with the key of the response, exactly when the response has a non-empty
    [kmsKeyArn], and no further header either way. *)
Theorem uploadArtifactToS3_encryption_headers
    (fs : fileSystem) fetchOk fileName resp content :
  fs !! fileName = Some content ->
  exists headers,
    (uploadArtifactToS3 sha256Base64 fs fetchOk fileName resp).1 =
      [EvFetch "PUT" (uploadUrl resp) content headers] /\
    headers !! "Content-Type" = Some "application/zip" /\
    (kmsKeyArn resp = None \/ kmsKeyArn resp = Some "" ->
       headers !! "x-amz-server-side-encryption" = None /\
       headers !! "x-amz-server-side-encryption-aws-kms-key-id" = None /\
       size headers = 2) /\
    (forall arn, kmsKeyArn resp = Some arn -> arn <> "" ->
       headers !! "x-amz-server-side-encryption" = Some "aws:kms" /\
       headers !! "x-amz-server-side-encryption-aws-kms-key-id" = Some arn /\
       size headers = 4).
Proof.
  intros Hfile. unfold uploadArtifactToS3, getSha256. rewrite Hfile.
  eexists. split; [reflexivity|].
  destruct (kmsKeyArn resp) as [[|a arn]|].
  - split; [by simplify_map_eq|]. split.
    + intros _. split; [by simplify_map_eq|]. split; [by simplify_map_eq|].
      by rewrite !map_size_insert_None, map_size_empty by by simplify_map_eq.
    + by intros arn [= <-].
  - split; [by simplify_map_eq|]. split.
    + by intros [|].
    + intros ? [= <-] _. split; [by simplify_map_eq|]. split; [by simplify_map_eq|].
      by rewrite !map_size_insert_None, map_size_empty by by simplify_map_eq.
  - split; [by simplify_map_eq|]. split.
    + intros _. split; [by simplify_map_eq|]. split; [by simplify_map_eq|].
      by rewrite !map_size_insert_None, map_size_empty by by simplify_map_eq.
    + by intros arn [=].
Qed.

(** X7: when [uploadPayload] returns an upload id, it is the id of the
    [createUploadUrl] response, and exactly two host calls were made: the
    request for the URL, with the digest of the payload file, and then one PUT
    to the URL of the response, with the payload file as body and the digest
    of that body as checksum header. *)
Theorem uploadPayload_success_means_uploaded
    (fs : fileSystem) (h : host) payloadFileName id :
  (uploadPayload sha256Base64 C fs h payloadFileName).2 = inr id ->
  exists response content content' headers,
    createUploadUrl h = Some response /\
    id = uploadId response /\
    fetchSettles h = true /\
    fs !! payloadFileName = Some content /\
    filesAfterCreateUploadUrl h !! payloadFileName = Some content' /\
    (uploadPayload sha256Base64 C fs h payloadFileName).1 =
      [EvCreateUploadUrl {| contentChecksum := sha256Base64 content;
                            reqContentChecksumType := contentChecksumType C;
                            reqUploadIntent := uploadIntent C |};
       EvFetch "PUT" (uploadUrl response) content' headers] /\
    headers !! "x-amz-checksum-sha256" = Some (sha256Base64 content').
Proof.
  unfold uploadPayload, getSha256.
  destruct (fs !! payloadFileName) as [content|] eqn:Hfile; [|done].
  destruct (createUploadUrl h) as [response|] eqn:Hresp; [|done].
  destruct (filesAfterCreateUploadUrl h !! payloadFileName) as [content'|] eqn:Hfile'.
  - destruct (uploadArtifactToS3_headers sha256Base64 _ (fetchSettles h) _ response _ Hfile')
      as (headers & -> & Hsum & _).
    cbn. destruct (fetchSettles h) eqn:Hfetch; [|done]. intros [= <-].
    by exists response, content, content', headers.
  - unfold uploadArtifactToS3, getSha256. by rewrite Hfile'.
Qed.

End UploadSends.

(** * What gets packaged *)

Section ZipLists.
Import Zip ZipSpec.

Lemma listed_mono entries entries' rel content :
  (forall e, e ∈ entries -> e ∈ entries') ->
  listed entries rel content -> listed entries' rel content.
Proof.
  intros Hsub Hl. destruct Hl as [entries name content Hin|entries name sub rel content Hin Hne Hl].
  - apply listed_file; auto.
  - eapply listed_below; eauto.
Qed.

Lemma elem_of_getFilesRecursively dir entries file :
  file ∈ getFilesRecursively dir entries <->
  exists e, e ∈ entries /\ file ∈ filesOf dir e.
Proof.
  unfold getFilesRecursively. rewrite list_elem_of_In, in_flat_map.
  split; intros (e & He & Hf); exists e; by rewrite ?list_elem_of_In in *.
Qed.

Lemma filesOf_listed entry : forall rel content,
  (rel, content) ∈ filesOf [] entry -> listed [entry] rel content.
Proof.
  induction entry as [name content0|name sub IH] using dirent_nested_ind;
    intros rel content; cbn [filesOf app].
  { intros [= -> ->]%list_elem_of_singleton. apply listed_file. by left. }
  destruct (String.eqb_spec name "target") as [->|Hne]; cbn [negb]; [by intros ?%elem_of_nil|].
  change (flat_map (filesOf [name]) sub) with (getFilesRecursively [name] sub).
  rewrite elem_of_getFilesRecursively. intros (e & He & Hf).
  rewrite filesOf_below in Hf. apply list_elem_of_fmap in Hf as ([rel' c] & [= -> ->] & Hf).
  rewrite Forall_forall in IH. apply (IH e He) in Hf.
  apply (listed_below _ name sub); [by left|done|].
  eapply listed_mono; [|done]. by intros e' ->%list_elem_of_singleton.
Qed.

Lemma listed_getFilesRecursively entries rel content :
  listed entries rel content -> (rel, content) ∈ getFilesRecursively [] entries.
Proof.
  induction 1 as [entries name content Hin|entries name sub rel content Hin Hne _ IH];
    apply elem_of_getFilesRecursively.
  - exists (File name content). split; [done|]. cbn. by left.
  - exists (Directory name sub). split; [done|]. cbn [filesOf app].
    apply String.eqb_neq in Hne. rewrite Hne. cbn [negb].
    change (flat_map (filesOf [name]) sub) with (getFilesRecursively [name] sub).
    rewrite getFilesRecursively_below.
    by apply (list_elem_of_fmap_2 (below [name]) _ (rel, content)).
Qed.

Lemma getFilesRecursively_listed dir entries (file : path * bytes) :
  file ∈ getFilesRecursively dir entries <->
  exists rel, file.1 = dir ++ rel /\ listed entries rel file.2.
Proof.
  rewrite getFilesRecursively_below, list_elem_of_fmap. split.
  - intros ([rel c] & -> & Hin). exists rel. split; [done|]. cbn.
    apply elem_of_getFilesRecursively in Hin as (e & He & Hf).
    apply filesOf_listed in Hf. eapply listed_mono; [|done].
    by intros e' ->%list_elem_of_singleton.
  - destruct file as [p c]. cbn. intros (rel & -> & Hl).
    exists (rel, c). split; [done|]. by apply listed_getFilesRecursively.
Qed.

(** X8: [getFilesRecursively] lists exactly the files below the folder that
    are reached through directories none of which is named [target], each
    with its path below the folder; a file that is itself named [target] is
    listed. *)
Theorem getFilesRecursively_lists_exactly dir entries (file : path * bytes) :
  file ∈ getFilesRecursively dir entries <->
  exists rel, file.1 = dir ++ rel /\ listed entries rel file.2.
Proof. apply getFilesRecursively_listed. Qed.

Lemma listed_avoids_target entries rel content :
  listed entries rel content ->
  exists dirs name, rel = dirs ++ [name] /\ "target" ∉ dirs.
Proof.
  induction 1 as [entries name content Hin|entries name sub rel content Hin Hne _ IH].
  - exists [], name. split; [done|]. apply not_elem_of_nil.
  - destruct IH as (dirs & file & -> & Hdirs). exists (name :: dirs), file.
    split; [done|]. rewrite not_elem_of_cons. split; [congruence|done].
Qed.

(** X9: no file [getFilesRecursively] lists lies in a directory named
    [target], at whatever depth below the folder. *)
Theorem getFilesRecursively_skips_target dir entries (file : path * bytes) :
  file ∈ getFilesRecursively dir entries ->
  exists dirs name, file.1 = dir ++ dirs ++ [name] /\ "target" ∉ dirs.
Proof.
  intros (rel & Hrel & Hl)%getFilesRecursively_listed.
  destruct (listed_avoids_target _ _ _ Hl) as (dirs & name & -> & Hdirs).
  by exists dirs, name.
Qed.

Variable manifestJson : string -> bytes.
Variable C : CodeWhispererConstants.

(** X10: when Maven has resolved the dependencies, no name among the files
    packaged (the name of the dependency folder included) holds a backslash
    and no two files get the same entry name, the archive of [zipCode] holds
    [manifest.json], one entry [sources/<path>] with the bytes of the file
    for every project file not below a [target] directory, one entry
    [<dependency folder>/<path>] for every such file of the resolved
    dependencies, and nothing else. *)
Theorem zipCode_packages_exactly tmpdir now modulePath project dependencies archive e :
  zipCode manifestJson C tmpdir now modulePath project (Some dependencies) = Some archive ->
  plain (getFilesRecursively [] project ++
         getFilesRecursively [dependencyRoot C now] dependencies) = true ->
  NoDup (entryName <$> archive) ->
  e ∈ archive <->
  e = {| entryName := "manifest.json";
         data := manifestJson (dependencyRoot C now +:+ "/") |} \/
  (exists rel content,
     listed project rel content /\
     e = {| entryName := pathString ("sources" :: rel); data := content |}) \/
  (exists rel content,
     listed dependencies rel content /\
     e = {| entryName := pathString (dependencyRoot C now :: rel); data := content |}).
Proof.
  rewrite zipCode_entries. intros [= <-] _ _.
  rewrite elem_of_cons, elem_of_app, !list_elem_of_fmap.
  assert (Hl : forall entries (file : path * bytes),
             file ∈ getFilesRecursively [] entries <-> listed entries file.1 file.2).
  { intros entries file. rewrite getFilesRecursively_listed. cbn.
    split; [by intros (rel & -> & ?)|by exists file.1]. }
  split.
  - intros [->|[([rel c] & -> & Hin%Hl)|([rel c] & -> & Hin%Hl)]];
      [by left|right; left|right; right]; by exists rel, c.
  - intros [->|[(rel & c & Hin & ->)|(rel & c & Hin & ->)]];
      [by left|right; left|right; right]; exists (rel, c); by rewrite Hl.
Qed.

End ZipLists.

(** * Accounts, secrets and sessions of the CAWS provider *)

Section CawsAccountsProofs.
Import Caws CawsAccounts.

Lemma secretKey_inj (u u' : string) : secretKey u = secretKey u' -> u = u'.
Proof. unfold secretKey. by intros ?%append_inj_r%append_inj_r. Qed.

Lemma getSecret_updateUser st u secret metadata u' :
  getSecret (updateUser st u secret metadata) u' =
    if decide (u = u')
    then (if String.eqb secret "" then None else Some secret)
    else getSecret st u'.
Proof.
  unfold getSecret, updateUser. cbn [secrets]. case_decide as Hu.
  - subst u'. by rewrite lookup_insert_eq.
  - rewrite lookup_insert_ne; [done|]. by intros ?%secretKey_inj.
Qed.

(** X11: storing a secret and reading it back: after [updateUser] for a
    user, [getSecret] of that user gives the secret stored, unless it is the
    empty string, for which [getSecret] throws; the secret of every other user
    is as before. *)
Theorem getSecret_after_updateUser st u secret metadata :
  getSecret (updateUser st u secret metadata) u =
    (if String.eqb secret "" then None else Some secret) /\
  (forall u', u' <> u ->
     getSecret (updateUser st u secret metadata) u' = getSecret st u').
Proof.
  split; [by rewrite getSecret_updateUser, decide_True|].
  intros u' Hne. by rewrite getSecret_updateUser, decide_False.
Qed.




Lemma knownInvalid_updateUser st u secret metadata u' :
  knownInvalid st u' ->
  metadata ≫= invalidSession <> Some false ->
  knownInvalid (updateUser st u secret metadata) u'.
Proof.
  unfold knownInvalid, updateUser. cbn [users]. intros Hold Hmeta.
  destruct (decide (u = u')) as [->|Hne]; [|by rewrite lookup_insert_ne].
  rewrite lookup_insert_eq. cbn. unfold spread. cbn.
  destruct (metadata ≫= invalidSession) as [[]|]; done.
Qed.

Lemma knownInvalid_call c p u :
  knownInvalid (storage p) u ->
  knownInvalid (storage (runCalls [c] p).1) u.
Proof.
  intros Hu. destruct c as [getUser cookie|getUser account|session]; cbn [runCalls].
  - unfold createAccount. destruct (getUser cookie); [|done].
    cbn. by apply knownInvalid_updateUser.
  - unfold createSession, login.
    destruct (getSecret _ _ ≫= _) as [[cookie username]|]; cbn;
      by apply knownInvalid_updateUser.
  - done.
Qed.

Lemma runCalls_cons c calls p :
  (runCalls (c :: calls) p).1 = (runCalls calls (runCalls [c] p).1).1.
Proof.
  destruct c as [getUser cookie|getUser account|session]; cbn [runCalls]; [done| |done].
  destruct (createSession getUser p account) as [created p1]. cbn [fst].
  by destruct (runCalls calls p1) as [p2 more].
Qed.

(** X13: no call on the provider clears the mark of an invalid session: once
    the storage knows the session token of a user to be invalid, it does so
    after every sequence of [createAccount], [createSession] and
    [deleteSession] calls, a successful login of that user included. *)
Theorem invalidSession_is_never_cleared calls p u :
  knownInvalid (storage p) u ->
  knownInvalid (storage (runCalls calls p).1) u.
Proof.
  revert p. induction calls as [|c calls IH]; intros p Hu; [done|].
  rewrite runCalls_cons. by apply IH, knownInvalid_call.
Qed.

End CawsAccountsProofs.

Section CawsSessionsProofs.
Import Caws CawsAccounts.

Lemma createSession_fired getUser p account created p' :
  createSession getUser p account = (created, p') ->
  fired p' = fired p ++ match created with Some s => [Added s] | None => [] end.
Proof.
  unfold createSession, login.
  destruct (getSecret _ _ ≫= _) as [[cookie username]|]; intros [= <- <-]; cbn;
    by rewrite ?app_nil_r.
Qed.

Lemma runCalls_sessions calls : forall p p' created,
  runCalls calls p = (p', created) ->
  (forall e, e ∈ fired p -> e ∈ fired p') /\
  (forall k s, sessions p' !! k = Some s ->
     sessions p !! k = Some s \/
     (id s = k /\ s ∈ created /\ Added s ∈ fired p')).
Proof.
  induction calls as [|c calls IH]; intros p p' created; cbn [runCalls].
  { intros [= <- <-]. split; [done|]. by left. }
  destruct c as [getUser cookie|getUser account|session].
  - intros Hrun. destruct (createAccount_sessions getUser p cookie) as [_ Hs].
    destruct (IH _ _ _ Hrun) as [Hfired Hsess]. rewrite Hs in Hsess.
    split; [|done]. intros e He. apply Hfired.
    unfold createAccount. by destruct (getUser cookie).
  - destruct (createSession getUser p account) as [[s|] p1] eqn:Hcreate;
      destruct (runCalls calls p1) as [p2 more] eqn:Hrun; intros [= <- <-];
      destruct (IH _ _ _ Hrun) as [Hfired Hsess];
      pose proof (createSession_fired _ _ _ _ _ Hcreate) as Hf.
    + destruct (createSession_Some _ _ _ _ _ Hcreate) as (_ & _ & Hs). split.
      { intros e He. apply Hfired. rewrite Hf. apply elem_of_app. by left. }
      intros k s' [Hk|(Hid & Hin & Hadd)]%Hsess.
      * rewrite Hs, lookup_insert in Hk. case_decide as Hkey; [|by left].
        injection Hk as <-. right. split; [done|]. split; [by left|].
        apply Hfired. rewrite Hf. apply elem_of_app. right. by left.
      * right. split; [done|]. split; [by right|done].
    + destruct (createSession_None _ _ _ _ Hcreate) as (_ & Hs). rewrite Hs in Hsess.
      split; [|done]. intros e He. apply Hfired. by rewrite Hf, app_nil_r.
  - intros Hrun. destruct (IH _ _ _ Hrun) as [Hfired Hsess]. split.
    { intros e He. apply Hfired. cbn. apply elem_of_app. by left. }
    intros k s [Hk|?]%Hsess; [left|by right].
    cbn in Hk. by apply lookup_delete_Some in Hk as [_ Hk].
Qed.

(** X14: on a provider that has served any sequence of calls since it was
    constructed, every session of the sessions map is stored under its own
    id, was returned by a [createSession] of that provider, and was announced
    by an [added] event. *)
Theorem sessions_map_holds_created_sessions st calls p created k s :
  runCalls calls (newProvider st) = (p, created) ->
  sessions p !! k = Some s ->
  id s = k /\ s ∈ created /\ Added s ∈ fired p /\ s ∈ listSessions p.
Proof.
  intros Hrun Hs. destruct (runCalls_sessions _ _ _ _ Hrun) as [_ Hsess].
  destruct (Hsess _ _ Hs) as [Hempty|(Hid & Hin & Hadd)]; [by cbn in Hempty|].
  split; [done|]. split; [done|]. split; [done|].
  unfold listSessions. apply list_elem_of_fmap. exists (k, s). split; [done|].
  by apply elem_of_map_to_list.
Qed.

(** X15: deleting the session a [createSession] has just returned brings
    the sessions map back to what it was before that [createSession], and
    the two calls fire an [added] and then a [removed] event for the
    session. *)
Theorem deleteSession_undoes_createSession st calls p created getUser account s p' :
  runCalls calls (newProvider st) = (p, created) ->
  createSession getUser p account = (Some s, p') ->
  sessions (deleteSession p' s) = sessions p /\
  fired (deleteSession p' s) = fired p ++ [Added s; Removed s] /\
  sessionCounter (deleteSession p' s) = (sessionCounter p + 1)%N.
Proof.
  intros Hrun Hcreate. destruct (runCalls_issued _ _ _ _ Hrun) as (Hp & _ & _).
  { intros k' s'. cbn. by rewrite lookup_empty. }
  pose proof (createSession_fired _ _ _ _ _ Hcreate) as Hf.
  destruct (createSession_Some _ _ _ _ _ Hcreate) as (Hid & Hc & Hs).
  assert (Hfresh : sessions p !! id s = None).
  { rewrite Hid. apply issued_fresh; [done|lia]. }
  unfold deleteSession. cbn [sessions fired sessionCounter].
  rewrite Hs, lookup_insert_eq, delete_insert_id, Hf, <-app_assoc by done. done.
Qed.

(** X16: [deleteSession] of a session whose id the sessions map does not
    hold changes nothing and fires no event; so deleting a session twice is
    deleting it once. *)
Theorem deleteSession_unknown_is_noop p s :
  sessions p !! id s = None ->
  deleteSession p s = p /\
  (forall p0, deleteSession (deleteSession p0 s) s = deleteSession p0 s).
Proof.
  assert (Hnoop : forall q, sessions q !! id s = None -> deleteSession q s = q).
  { intros [st m n f] Hq. unfold deleteSession. cbn in *.
    by rewrite Hq, delete_id, app_nil_r. }
  intros Hs. split; [by apply Hnoop|]. intros p0. apply Hnoop. cbn.
  apply lookup_delete_eq.
Qed.

(** X17: an account made by [createAccount] from a non-empty cookie can log
    in: [createSession] for it succeeds as long as the verifier still
    accepts the cookie, and the session carries that cookie and that account.
    An account made from the empty cookie cannot: its [createSession] fails
    whatever the verifier answers. *)
Theorem createSession_after_createAccount getUser p cookie account p1 :
  createAccount getUser p cookie = (Some account, p1) ->
  (cookie <> "" ->
     exists s p2,
       createSession getUser p1 account = (Some s, p2) /\
       accessDetails s = cookie /\
       accountDetails s = account /\
       sessions p2 !! id s = Some s) /\
  (cookie = "" -> forall getUser', (createSession getUser' p1 account).1 = None).
Proof.
  unfold createAccount. destruct (getUser cookie) as [username|] eqn:Huser; [|done].
  intros [= <- <-]. split.
  - intros Hne. unfold createSession, login. cbn [accountId storage withStorage].
    rewrite getSecret_updateUser, decide_True by done.
    apply String.eqb_neq in Hne. rewrite Hne. cbn. rewrite Huser. cbn.
    eexists _, _. split; [done|]. cbn. split; [done|]. split; [done|].
    apply lookup_insert_eq.
  - intros -> getUser'. unfold createSession, login. cbn [accountId storage withStorage].
    by rewrite getSecret_updateUser, decide_True.
Qed.

End CawsSessionsProofs.

(** * What the settings wizard saves *)

Section WizardSaves.
Import Wizard WizardSpec.

Variable number : Type.
Variable strictNe : number -> number -> bool.

Local Abbreviation store := (gmap loc (object number)).

(** The flags of a menu that compares the initial form and storage with the
    current ones. *)
Definition flagsOf (i f : SettingsForm number) (si sf : PersistentStorage number) : diffState :=
  {| diffInstanceType := negb (String.eqb (instanceType i) (instanceType f));
     diffInactivityTimeoutMinutes :=
       strictNe (inactivityTimeoutMinutes i) (inactivityTimeoutMinutes f);
     diffPersistentStorageSize := strictNe (sizeInGiB si) (sizeInGiB sf) |}.

(** The store a menu works on: the initial form, the current form, which is
    another object, and the storage object of each. *)
Record menuState (h : store) (initState curr : loc)
    (i f : SettingsForm number) (si sf : PersistentStorage number) : Prop := {
  ms_distinct : initState <> curr;
  ms_init : h !! initState = Some (Form i);
  ms_curr : h !! curr = Some (Form f);
  ms_initStorage : h !! persistentStorage i = Some (Storage si);
  ms_currStorage : h !! persistentStorage f = Some (Storage sf)
}.

Lemma menuState_getters h initState curr i f si sf :
  menuState h initState curr i f si sf ->
  getForm h initState = Some i /\ getForm h curr = Some f /\
  getStorage h (persistentStorage i) = Some si /\
  getStorage h (persistentStorage f) = Some sf.
Proof.
  intros []. rewrite !getForm_Some, !getStorage_Some. done.
Qed.

Lemma editItem_answer (h : store) initState curr c i f si sf :
  menuState h initState curr i f si sf ->
  exists h' f' sf',
    editItem h curr c = Some h' /\
    menuState h' initState curr i f' si sf' /\
    instanceType f' = lastComputeSize [c] (instanceType f) /\
    inactivityTimeoutMinutes f' = lastTimeoutLength [c] (inactivityTimeoutMinutes f) /\
    sizeInGiB sf' = lastStorageSize [c] (sizeInGiB sf) /\
    (if storageEdited [c] then h !! persistentStorage f' = None
     else persistentStorage f' = persistentStorage f) /\
    (forall l, h' !! l = None -> h !! l = None).
Proof.
  intros [Hne Hi Hf Hsi Hsf]. unfold editItem.
  assert (Hgf : getForm h curr = Some f) by by apply getForm_Some.
  rewrite Hgf. cbn [mbind option_bind].
  assert (Hi_curr : persistentStorage i <> curr) by congruence.
  assert (Hf_curr : persistentStorage f <> curr) by congruence.
  pose proof (fresh_lookup number h) as Hfresh.
  destruct c as [| |[r|]|[r|]|[r|]]; cbn [lastComputeSize lastTimeoutLength
    lastStorageSize storageEdited];
    try (exists h, f, sf; by repeat (split; [done|])).
  - eexists _, {| inactivityTimeoutMinutes := inactivityTimeoutMinutes f;
                  instanceType := r; persistentStorage := persistentStorage f |}, sf.
    split; [done|]. split; [|repeat (split; [done|])].
    + split; cbn; by rewrite ?lookup_insert_eq, ?lookup_insert_ne.
    + intros l. rewrite lookup_insert_None. tauto.
  - eexists _, {| inactivityTimeoutMinutes := r;
                  instanceType := instanceType f; persistentStorage := persistentStorage f |}, sf.
    split; [done|]. split; [|repeat (split; [done|])].
    + split; cbn; by rewrite ?lookup_insert_eq, ?lookup_insert_ne.
    + intros l. rewrite lookup_insert_None. tauto.
  - unfold alloc. set (l' := fresh (dom h)) in *.
    assert (l' <> initState) by congruence.
    assert (l' <> curr) by congruence.
    assert (l' <> persistentStorage i) by congruence.
    eexists _, {| inactivityTimeoutMinutes := inactivityTimeoutMinutes f;
                  instanceType := instanceType f; persistentStorage := l' |},
               {| sizeInGiB := r |}.
    split; [done|]. split; [|repeat (split; [done|])].
    + split; cbn; [done|..].
      * by rewrite !lookup_insert_ne.
      * by rewrite lookup_insert_eq.
      * by rewrite !lookup_insert_ne.
      * by rewrite lookup_insert_ne, lookup_insert_eq.
    + intros l. rewrite !lookup_insert_None. tauto.
Qed.

Lemma last_answers_cons (c : choice number) rest :
  match c with Leave | SaveSettings => False | _ => True end ->
  (forall x, lastComputeSize (c :: rest) x = lastComputeSize rest (lastComputeSize [c] x)) /\
  (forall x, lastTimeoutLength (c :: rest) x = lastTimeoutLength rest (lastTimeoutLength [c] x)) /\
  (forall x, lastStorageSize (c :: rest) x = lastStorageSize rest (lastStorageSize [c] x)) /\
  storageEdited (c :: rest) = storageEdited [c] || storageEdited rest.
Proof. by destruct c as [| |[r|]|[r|]|[r|]]. Qed.

Lemma menuLoop_saved choices : forall (h : store) initState curr i f si sf o c,
  menuState h initState curr i f si sf ->
  menuLoop strictNe h initState curr choices = Some o ->
  returned o = Saved c ->
  c = curr /\
  exists f' sf',
    menuState (final o) initState curr i f' si sf' /\
    instanceType f' = lastComputeSize choices (instanceType f) /\
    inactivityTimeoutMinutes f' = lastTimeoutLength choices (inactivityTimeoutMinutes f) /\
    sizeInGiB sf' = lastStorageSize choices (sizeInGiB sf) /\
    (if storageEdited choices then h !! persistentStorage f' = None
     else persistentStorage f' = persistentStorage f) /\
    last (menus o) = Some (flagsOf i f' si sf').
Proof.
  induction choices as [|ch choices IH]; intros h initState curr i f si sf o c Hms;
    cbn [menuLoop].
  { by intros [= <-]. }
  destruct (menuState_getters _ _ _ _ _ _ _ Hms) as (Hi & Hf & Hsi & Hsf).
  rewrite Hi, Hf. cbn [mbind option_bind]. unfold diff. rewrite Hsi, Hsf.
  cbn [mbind option_bind].
  destruct (editItem_answer h initState curr ch i f si sf Hms)
    as (h' & f1 & sf1 & Hedit & Hms' & Hct & Ht & Hsz & Halias & Hgrow).
  assert (Hstep : forall o1,
    menuLoop strictNe h' initState curr choices = Some o1 ->
    returned o1 = Saved c ->
    match ch with Leave | SaveSettings => False | _ => True end ->
    c = curr /\
    exists f' sf',
      menuState (final o1) initState curr i f' si sf' /\
      instanceType f' = lastComputeSize (ch :: choices) (instanceType f) /\
      inactivityTimeoutMinutes f' =
        lastTimeoutLength (ch :: choices) (inactivityTimeoutMinutes f) /\
      sizeInGiB sf' = lastStorageSize (ch :: choices) (sizeInGiB sf) /\
      (if storageEdited (ch :: choices) then h !! persistentStorage f' = None
       else persistentStorage f' = persistentStorage f) /\
      last (flagsOf i f si sf :: menus o1) = Some (flagsOf i f' si sf')).
  { intros o1 Ho1 Hret Hch.
    destruct (IH _ _ _ _ _ _ _ _ _ Hms' Ho1 Hret)
      as (-> & f' & sf' & Hfin & Hct' & Ht' & Hsz' & Halias' & Hlast).
    destruct (last_answers_cons ch choices Hch) as (Ec & Et & Es & Ee).
    split; [done|]. exists f', sf'. rewrite Ec, Et, Es, Ee, <-Hct, <-Ht, <-Hsz.
    repeat (split; [done|]). split.
    - destruct (storageEdited [ch]), (storageEdited choices); cbn [orb].
      + by apply Hgrow.
      + by rewrite Halias'.
      + by apply Hgrow.
      + by rewrite Halias'.
    - destruct (menus o1) as [|d ds]; [done|]. by rewrite last_cons, Hlast. }
  destruct ch as [| |r|r|r]; cbn [final returned menus].
  - by intros [= <-].
  - intros [= <-]. cbn. intros [= <-]. split; [done|]. by exists f, sf.
  - rewrite Hedit. cbn [mbind option_bind].
    destruct (menuLoop strictNe h' initState curr choices) as [o1|] eqn:Ho1; [|done].
    cbn. intros [= <-]. cbn. intros Hret. by apply (Hstep o1).
  - rewrite Hedit. cbn [mbind option_bind].
    destruct (menuLoop strictNe h' initState curr choices) as [o1|] eqn:Ho1; [|done].
    cbn. intros [= <-]. cbn. intros Hret. by apply (Hstep o1).
  - rewrite Hedit. cbn [mbind option_bind].
    destruct (menuLoop strictNe h' initState curr choices) as [o1|] eqn:Ho1; [|done].
    cbn. intros [= <-]. cbn. intros Hret. by apply (Hstep o1).
Qed.

Lemma run_saved (h : store) initState choices i s o c :
  getForm h initState = Some i ->
  getStorage h (persistentStorage i) = Some s ->
  run strictNe h initState choices = Some o ->
  returned o = Saved c ->
  h !! c = None /\
  exists f sf,
    getForm (final o) c = Some f /\
    getStorage (final o) (persistentStorage f) = Some sf /\
    instanceType f = lastComputeSize choices (instanceType i) /\
    inactivityTimeoutMinutes f = lastTimeoutLength choices (inactivityTimeoutMinutes i) /\
    sizeInGiB sf = lastStorageSize choices (sizeInGiB s) /\
    (if storageEdited choices then h !! persistentStorage f = None
     else persistentStorage f = persistentStorage i) /\
    last (menus o) = Some (flagsOf i f s sf).
Proof.
  intros Hi Hs. unfold run. rewrite Hi. cbn [mbind option_bind alloc].
  pose proof (fresh_lookup number h) as Hfresh. set (curr := fresh (dom h)) in *.
  apply getForm_Some in Hi. apply getStorage_Some in Hs.
  assert (initState <> curr) by congruence.
  assert (persistentStorage i <> curr) by congruence.
  intros Hrun Hret.
  destruct (menuLoop_saved choices (<[curr := Form i]> h) initState curr i i s s o c)
    as (-> & f & sf & [_ _ Hf _ Hsf] & Hct & Ht & Hsz & Halias & Hlast);
    [|exact Hrun|exact Hret|].
  { split; by rewrite ?lookup_insert_eq, ?lookup_insert_ne. }
  split; [done|]. exists f, sf. rewrite getForm_Some, getStorage_Some.
  repeat (split; [done|]). split; [|done].
  destruct (storageEdited choices); [|done].
  by apply lookup_insert_None in Halias as [? _].
Qed.

(** X18: the form [run] saves holds, for each of the three settings, the
    last valid answer the user gave in its prompt before saving, and the
    initial value where there was none. *)
Theorem run_saves_last_answers (h : store) initState choices i s o c :
  getForm h initState = Some i ->
  getStorage h (persistentStorage i) = Some s ->
  run strictNe h initState choices = Some o ->
  returned o = Saved c ->
  exists f sf,
    getForm (final o) c = Some f /\
    getStorage (final o) (persistentStorage f) = Some sf /\
    instanceType f = lastComputeSize choices (instanceType i) /\
    inactivityTimeoutMinutes f = lastTimeoutLength choices (inactivityTimeoutMinutes i) /\
    sizeInGiB sf = lastStorageSize choices (sizeInGiB s).
Proof.
  intros Hi Hs Hrun Hret.
  destruct (run_saved h initState choices i s o c Hi Hs Hrun Hret)
    as (_ & f & sf & ? & ? & ? & ? & ? & _).
  by exists f, sf.
Qed.

(** X19: the form [run] saves is an object made during the call, never the
    initial settings object; its [persistentStorage] is the very object of
    the initial settings when the user gave no valid answer to the storage
    prompt, and an object made during the call when the user did. *)
Theorem run_saved_form_shares_storage_unless_edited (h : store) initState choices i s o c :
  getForm h initState = Some i ->
  getStorage h (persistentStorage i) = Some s ->
  run strictNe h initState choices = Some o ->
  returned o = Saved c ->
  h !! c = None /\ c <> initState /\
  exists f,
    getForm (final o) c = Some f /\
    (storageEdited choices = false -> persistentStorage f = persistentStorage i) /\
    (storageEdited choices = true ->
       h !! persistentStorage f = None /\ persistentStorage f <> persistentStorage i).
Proof.
  intros Hi Hs Hrun Hret.
  destruct (run_saved h initState choices i s o c Hi Hs Hrun Hret)
    as (Hc & f & sf & Hf & _ & _ & _ & _ & Halias & _).
  apply getForm_Some in Hi. apply getStorage_Some in Hs.
  split; [done|]. split; [congruence|]. exists f. split; [done|].
  destruct (storageEdited choices); split; try done.
  intros _. split; [done|congruence].
Qed.

(** X20: the menu from which the user saves flags as modified exactly the
    settings whose saved value is not strictly equal to the initial one. *)
Theorem run_last_menu_flags_saved_changes (h : store) initState choices i s o c :
  getForm h initState = Some i ->
  getStorage h (persistentStorage i) = Some s ->
  run strictNe h initState choices = Some o ->
  returned o = Saved c ->
  exists f sf,
    getForm (final o) c = Some f /\
    getStorage (final o) (persistentStorage f) = Some sf /\
    last (menus o) =
      Some {| diffInstanceType := negb (String.eqb (instanceType i) (instanceType f));
              diffInactivityTimeoutMinutes :=
                strictNe (inactivityTimeoutMinutes i) (inactivityTimeoutMinutes f);
              diffPersistentStorageSize := strictNe (sizeInGiB s) (sizeInGiB sf) |}.
Proof.
  intros Hi Hs Hrun Hret.
  destruct (run_saved h initState choices i s o c Hi Hs Hrun Hret)
    as (_ & f & sf & ? & ? & _ & _ & _ & _ & Hlast).
  by exists f, sf.
Qed.

End WizardSaves.

(** * Which modules [getValidModules] offers *)

Section ValidModulesProofs.
Import ValidModules.

Variable javap : string -> option string.
Variable trim : string -> string.
Variable JDK8VersionNumber JDK11VersionNumber : string.
Variable noSupportedJavaProjectsFoundMessage noPomXmlFoundMessage : string.

Local Abbreviation visit := (visit javap trim JDK8VersionNumber JDK11VersionNumber).
Local Abbreviation supportedJava :=
  (supportedJava javap trim JDK8VersionNumber JDK11VersionNumber).
Local Abbreviation isValidModule :=
  (isValidModule javap trim JDK8VersionNumber JDK11VersionNumber).
Local Abbreviation getValidModules :=
  (getValidModules javap trim JDK8VersionNumber JDK11VersionNumber
     noSupportedJavaProjectsFoundMessage noPomXmlFoundMessage).

Local Abbreviation hasSupportedJava :=
  (hasSupportedJava javap trim JDK8VersionNumber JDK11VersionNumber).

Lemma visit_supported st folder :
  visit st folder =
    match supportedJava folder with
    | None => st
    | Some v =>
      {| validModules :=
           validModules st ++ (if isValidModule folder then [itemOf folder] else []);
         containsSupportedJava := true;
         containsPomXml := containsPomXml st || isValidModule folder;
         sourceJDKVersion := Some v |}
    end.
Proof.
  unfold ValidModules.visit, ValidModules.isValidModule, ValidModules.hasSupportedJava,
    ValidModules.supportedJava.
  destruct (compiledJavaFiles folder) as [|classFilePath ?]; [done|].
  destruct (javap classFilePath) as [stdout|]; cbn [mbind option_bind]; [|done].
  destruct (String.eqb (javaVersionOf trim stdout) JDK8VersionNumber);
    [|destruct (String.eqb (javaVersionOf trim stdout) JDK11VersionNumber); [|done]].
  all: rewrite bool_decide_true by eauto; cbn [andb].
  all: destruct (buildFile folder); by rewrite ?app_nil_r, ?orb_false_r, ?orb_true_r.
Qed.

Lemma foldl_visit folders : forall st,
  validModules (foldl visit st folders) =
    validModules st ++ (itemOf <$> List.filter isValidModule folders) /\
  containsSupportedJava (foldl visit st folders) =
    containsSupportedJava st || existsb hasSupportedJava folders /\
  containsPomXml (foldl visit st folders) =
    containsPomXml st || existsb isValidModule folders.
Proof.
  induction folders as [|folder folders IH]; intros st; cbn [foldl List.filter existsb].
  { by rewrite fmap_nil, app_nil_r, !orb_false_r. }
  destruct (IH (visit st folder)) as (-> & -> & ->).
  rewrite visit_supported.
  destruct (supportedJava folder) as [v|] eqn:Hv.
  - assert (Hh : hasSupportedJava folder = true).
    { unfold ValidModules.hasSupportedJava. rewrite Hv. apply bool_decide_eq_true. eauto. }
    rewrite Hh. cbn [validModules containsSupportedJava containsPomXml].
    destruct (isValidModule folder); cbn [fmap list_fmap app];
      by rewrite <-?app_assoc, ?orb_true_r, ?orb_false_r, ?app_nil_r.
  - assert (Hh : hasSupportedJava folder = false).
    { unfold ValidModules.hasSupportedJava. rewrite Hv. apply bool_decide_eq_false.
      by intros [? [=]]. }
    assert (Hvalid : isValidModule folder = false).
    { unfold ValidModules.isValidModule. by rewrite Hh. }
    by rewrite Hh, Hvalid.
Qed.

Lemma foldl_visit_version folders : forall st,
  (Forall (fun folder => supportedJava folder = None) folders /\
   sourceJDKVersion (foldl visit st folders) = sourceJDKVersion st) \/
  (exists before folder after v,
     folders = before ++ folder :: after /\
     supportedJava folder = Some v /\
     Forall (fun later => supportedJava later = None) after /\
     sourceJDKVersion (foldl visit st folders) = Some v).
Proof.
  induction folders as [|folder folders IH]; intros st; cbn [foldl].
  { left. by split; [apply Forall_nil|]. }
  destruct (IH (visit st folder)) as [[Hnone Hsame]|(before & f & after & v & -> & Hv & Hafter & Hlast)].
  - rewrite Hsame, visit_supported. destruct (supportedJava folder) as [v|] eqn:Hv.
    + right. by exists [], folder, folders, v.
    + left. split; [by apply Forall_cons|done].
  - right. by exists (folder :: before), f, after, v.
Qed.

(** X21: when [getValidModules] returns, the modules it returns are, in
    workspace order, exactly the open folders that have a class file whose
    [javap] output shows JDK 8 or 11 and that have a [pom.xml]; there is at
    least one, and no error message is shown. *)
Theorem getValidModules_returns_valid_folders folders recorded modules :
  result (getValidModules folders recorded) = inr modules ->
  exists open,
    folders = Some open /\
    modules = itemOf <$> List.filter isValidModule open /\
    modules <> [] /\
    shown (getValidModules folders recorded) = [].
Proof.
  unfold ValidModules.getValidModules. destruct folders as [open|]; [|done].
  intros Hres. exists open. split; [done|].
  match type of Hres with context [foldl _ ?st0 _] =>
    destruct (foldl_visit open st0) as (Hm & Hj & Hp) end.
  cbn in Hm, Hj, Hp. rewrite Hj, Hp, Hm in *.
  destruct (existsb hasSupportedJava open); [|done].
  destruct (existsb isValidModule open) eqn:Hex; [|done].
  cbn in Hres |- *. injection Hres as <-. split; [done|]. split; [|done].
  apply existsb_exists in Hex as (folder & Hin & Hvalid).
  intros Hnil%fmap_nil_inv.
  assert (Hf : In folder (List.filter isValidModule open)) by by apply filter_In.
  by rewrite Hnil in Hf.
Qed.

(** X22: with folders open, [getValidModules] throws 'No Java projects
    found' exactly when no folder has supported compiled Java, even if
    folders have a [pom.xml]; it throws 'No build file found' exactly when
    some folder has supported compiled Java but none of those has a
    [pom.xml]; otherwise it returns. *)
Theorem getValidModules_errors open recorded :
  (result (getValidModules (Some open) recorded) = inl "No Java projects found" <->
     existsb hasSupportedJava open = false) /\
  (result (getValidModules (Some open) recorded) = inl "No build file found" <->
     existsb hasSupportedJava open = true /\ existsb isValidModule open = false) /\
  ((exists modules, result (getValidModules (Some open) recorded) = inr modules) <->
     existsb isValidModule open = true).
Proof.
  unfold ValidModules.getValidModules.
  match goal with |- context [foldl _ ?st0 _] =>
    destruct (foldl_visit open st0) as (_ & Hj & Hp) end.
  cbn in Hj, Hp. rewrite Hj, Hp.
  assert (Himp : existsb isValidModule open = true -> existsb hasSupportedJava open = true).
  { rewrite !existsb_exists. intros (folder & Hin & Hvalid). exists folder. split; [done|].
    unfold ValidModules.isValidModule in Hvalid. by apply andb_prop in Hvalid as [? _]. }
  destruct (existsb hasSupportedJava open), (existsb isValidModule open); cbn;
    try (by specialize (Himp eq_refl));
    (split; [|split]); split; try done; try (by intros [? [=]]); try (by intros [[=] _]);
    try (by intros [_ [=]]); by eauto.
Qed.

(** X23: whenever some open folder has supported compiled Java, the source
    JDK version recorded after [getValidModules] is that of the last such
    folder in workspace order, whether or not that folder has a [pom.xml]
    and is among the modules returned; when no folder has, the recorded
    version is left as it was. *)
Theorem getValidModules_records_last_supported_version open recorded :
  (existsb hasSupportedJava open = false /\
   finalJDKVersion (getValidModules (Some open) recorded) = recorded) \/
  (exists before folder after v,
     open = before ++ folder :: after /\
     supportedJava folder = Some v /\
     Forall (fun later => supportedJava later = None) after /\
     finalJDKVersion (getValidModules (Some open) recorded) = Some v).
Proof.
  unfold ValidModules.getValidModules.
  match goal with |- context [foldl _ ?st0 _] =>
    destruct (foldl_visit_version open st0)
      as [[Hnone Hsame]|(before & f & after & v & -> & Hv & Hafter & Hlast)] end.
  - left. split.
    + apply not_true_is_false. intros (folder & Hin & Hs)%existsb_exists.
      rewrite Forall_forall in Hnone. unfold ValidModules.hasSupportedJava in Hs.
      apply bool_decide_eq_true in Hs as [v Hs]. apply list_elem_of_In in Hin.
      rewrite (Hnone folder Hin) in Hs. done.
    + by repeat case_match.
  - right. exists before, f, after, v. repeat (split; [done|]). by repeat case_match.
Qed.

End ValidModulesProofs.

(** * The further theorems at work on the sample values *)

Lemma poll_returns_only_valid_status_witness :
  Poll.result (Poll.pollTransformationJob Samples.constants Samples.plannedWorld 5
                 "job-1" ["PLANNED"]) = Poll.Returned "PLANNED" /\
  includes ["PLANNED"] "PLANNED" = true.
Proof.
  split; [reflexivity|].
  exact (proj1 (poll_returns_only_valid_status
    Samples.constants Samples.plannedWorld "job-1" ["PLANNED"] 5 "PLANNED" eq_refl)).
Defined.

Lemma poll_job_failed_only_on_failure_state_witness :
  Poll.result (Poll.pollTransformationJob Samples.constants Samples.failedWorld 5
                 "job-1" ["PLANNED"]) = Poll.Threw Poll.jobFailed /\
  exists pre status,
    Poll.events (Poll.pollTransformationJob Samples.constants Samples.failedWorld 5
                   "job-1" ["PLANNED"]) =
      pre ++ [Poll.EvGetCodeTransformation "job-1" (Poll.JobStatus status)] /\
    includes ["PLANNED"] status = false /\
    includes (failureStates Samples.constants) status = true.
Proof.
  split; [reflexivity|].
  exact (poll_job_failed_only_on_failure_state
    Samples.constants Samples.failedWorld "job-1" ["PLANNED"] 5 eq_refl).
Defined.

Lemma poll_rejected_query_is_not_retried_witness :
  Poll.events (Poll.pollTransformationJob Samples.constants MoreSamples.rejectedWorld 5
                 "job-1" ["PLANNED"]) =
    [Poll.EvIsCancelled false;
     Poll.EvGetCodeTransformation "job-1" (Poll.JobStatus "TRANSFORMING");
     Poll.EvSleep 10000;
     Poll.EvIsCancelled false] ++
    Poll.EvGetCodeTransformation "job-1" (Poll.Rejected "ThrottlingException") :: [] /\
  Poll.result (Poll.pollTransformationJob Samples.constants MoreSamples.rejectedWorld 5
                 "job-1" ["PLANNED"]) = Poll.Threw (Poll.HostError "ThrottlingException").
Proof.
  split; [reflexivity|].
  exact (proj1 (proj2 (poll_rejected_query_is_not_retried
    Samples.constants MoreSamples.rejectedWorld "job-1" ["PLANNED"] 5
    [Poll.EvIsCancelled false;
     Poll.EvGetCodeTransformation "job-1" (Poll.JobStatus "TRANSFORMING");
     Poll.EvSleep 10000;
     Poll.EvIsCancelled false]
    "ThrottlingException" [] eq_refl))).
Defined.

(** With an interval of 10 and a time-out of 25 no run sleeps longer than
    35 seconds; the run of a job that stays pending sleeps 30. *)
Lemma poll_total_sleep_bounded_witness :
  (0 <= transformationJobPollingIntervalSeconds Samples.constants)%Z /\
  (0 <= transformationJobTimeoutSeconds Samples.constants)%Z /\
  (PollTrace.totalSleep
     (Poll.events (Poll.pollTransformationJob Samples.constants Samples.pendingWorld 7
                     "job-1" ["PLANNED"])) <= 35000)%Z /\
  PollTrace.totalSleep
    (Poll.events (Poll.pollTransformationJob Samples.constants Samples.pendingWorld 7
                    "job-1" ["PLANNED"])) = 30000%Z.
Proof.
  split; [discriminate|]. split; [discriminate|]. split; [|reflexivity].
  exact (poll_total_sleep_bounded
    Samples.constants Samples.pendingWorld "job-1" ["PLANNED"] 7
    ltac:(discriminate) ltac:(discriminate)).
Defined.

Lemma uploadArtifactToS3_encryption_headers_witness :
  Samples.files !! Samples.payload = Some [x50; x4b; x03; x04] /\
  exists headers,
    (Upload.uploadArtifactToS3 Samples.digest Samples.files true Samples.payload
       MoreSamples.kmsResponse).1 =
      [Upload.EvFetch "PUT" "https://bucket.example/upload-2" [x50; x4b; x03; x04] headers] /\
    headers !! "x-amz-server-side-encryption-aws-kms-key-id" =
      Some "arn:aws:kms:us-east-1:111122223333:key/1" /\
    size headers = 4.
Proof.
  split; [reflexivity|].
  destruct (uploadArtifactToS3_encryption_headers Samples.digest Samples.files true
              Samples.payload MoreSamples.kmsResponse [x50; x4b; x03; x04] eq_refl)
    as (headers & Hev & _ & _ & Hkms).
  exists headers. split; [exact Hev|].
  destruct (Hkms _ eq_refl ltac:(discriminate)) as (_ & Hkey & Hsize).
  split; [exact Hkey|exact Hsize].
Defined.

Lemma uploadPayload_success_means_uploaded_witness :
  (Upload.uploadPayload Samples.digest Samples.constants Samples.files
     Samples.uploadHost Samples.payload).2 = inr "upload-1" /\
  exists response,
    Upload.createUploadUrl Samples.uploadHost = Some response /\
    "upload-1" = Upload.uploadId response.
Proof.
  split; [reflexivity|].
  destruct (uploadPayload_success_means_uploaded Samples.digest Samples.constants
              Samples.files Samples.uploadHost Samples.payload "upload-1" eq_refl)
    as (response & _ & _ & _ & Hresp & Hid & _).
  exists response. split; [exact Hresp|exact Hid].
Defined.

(** The class file below [target] is not listed; the source file is. *)
Lemma getFilesRecursively_skips_target_witness :
  (["home"; "project"; "src"; "App.java"], [x41]) ∈
    Zip.getFilesRecursively ["home"; "project"] Samples.project /\
  exists dirs name,
    ["home"; "project"; "src"; "App.java"] = ["home"; "project"] ++ dirs ++ [name] /\
    "target" ∉ dirs.
Proof.
  assert (Hin : (["home"; "project"; "src"; "App.java"], [x41]) ∈
                  Zip.getFilesRecursively ["home"; "project"] Samples.project).
  { apply list_elem_of_In. cbn. right. left. reflexivity. }
  split; [exact Hin|].
  exact (getFilesRecursively_skips_target ["home"; "project"] Samples.project
           (["home"; "project"; "src"; "App.java"], [x41]) Hin).
Defined.

(** The sample project and its dependencies hold no backslash and give
    four entries of different names. *)
Lemma zipCode_packages_exactly_witness :
  Zip.zipCode Samples.manifestJson Samples.constants ["tmp"] 1700000000000
    ["home"; "project"] Samples.project (Some Samples.dependencies) =
    Some (default [] (Samples.zipAt 1700000000000)) /\
  ZipSpec.plain
    (Zip.getFilesRecursively [] Samples.project ++
     Zip.getFilesRecursively [Zip.dependencyRoot Samples.constants 1700000000000]
       Samples.dependencies) = true /\
  NoDup (Zip.entryName <$> default [] (Samples.zipAt 1700000000000)) /\
  {| Zip.entryName := "sources/src/App.java"; Zip.data := [x41] |} ∈
    default [] (Samples.zipAt 1700000000000).
Proof.
  assert (Hplain : ZipSpec.plain
            (Zip.getFilesRecursively [] Samples.project ++
             Zip.getFilesRecursively [Zip.dependencyRoot Samples.constants 1700000000000]
               Samples.dependencies) = true) by (vm_compute; reflexivity).
  assert (Hnames : NoDup (Zip.entryName <$> default [] (Samples.zipAt 1700000000000))).
  { apply (bool_decide_unpack _). vm_compute. exact I. }
  split; [reflexivity|]. split; [exact Hplain|]. split; [exact Hnames|].
  apply (proj2 (zipCode_packages_exactly Samples.manifestJson Samples.constants
    ["tmp"] 1700000000000 ["home"; "project"] Samples.project Samples.dependencies
    (default [] (Samples.zipAt 1700000000000))
    {| Zip.entryName := "sources/src/App.java"; Zip.data := [x41] |}
    eq_refl Hplain Hnames)).
  right. left. exists ["src"; "App.java"], [x41]. split; [|reflexivity].
  apply (ZipSpec.listed_below _ "src" [Zip.File "App.java" [x41]]).
  - apply list_elem_of_In. cbn. right. left. reflexivity.
  - discriminate.
  - apply ZipSpec.listed_file. apply list_elem_of_In. cbn. left. reflexivity.
Defined.


(** The later successful login of [alice] leaves the mark on her account. *)
Lemma invalidSession_is_never_cleared_witness :
  CawsAccounts.knownInvalid MoreSamples.markedStorage "alice" /\
  CawsAccounts.knownInvalid
    (Caws.storage
       (Caws.runCalls [Caws.CallCreateSession Samples.verifier Samples.alice]
          (Caws.newProvider MoreSamples.markedStorage)).1) "alice" /\
  Caws.id <$>
    (Caws.runCalls [Caws.CallCreateSession Samples.verifier Samples.alice]
       (Caws.newProvider MoreSamples.markedStorage)).2 = ["session-1"].
Proof.
  assert (Hmark : CawsAccounts.knownInvalid MoreSamples.markedStorage "alice")
    by (vm_compute; reflexivity).
  split; [exact Hmark|]. split; [|vm_compute; reflexivity].
  exact (invalidSession_is_never_cleared
    [Caws.CallCreateSession Samples.verifier Samples.alice]
    (Caws.newProvider MoreSamples.markedStorage) "alice" Hmark).
Defined.

Lemma sessions_map_holds_created_sessions_witness :
  Caws.runCalls Samples.calls (Caws.newProvider Samples.cawsStorage) =
    (MoreSamples.afterCalls, MoreSamples.createdByCalls) /\
  Caws.sessions MoreSamples.afterCalls !! "session-2" =
    Some (MoreSamples.sessionOfAlice "session-2") /\
  Caws.Added (MoreSamples.sessionOfAlice "session-2") ∈ Caws.fired MoreSamples.afterCalls.
Proof.
  assert (Hrun : Caws.runCalls Samples.calls (Caws.newProvider Samples.cawsStorage) =
                 (MoreSamples.afterCalls, MoreSamples.createdByCalls))
    by (vm_compute; reflexivity).
  assert (Hs : Caws.sessions MoreSamples.afterCalls !! "session-2" =
               Some (MoreSamples.sessionOfAlice "session-2"))
    by (vm_compute; reflexivity).
  split; [exact Hrun|]. split; [exact Hs|].
  exact (proj1 (proj2 (proj2 (sessions_map_holds_created_sessions
    Samples.cawsStorage Samples.calls MoreSamples.afterCalls MoreSamples.createdByCalls
    "session-2" (MoreSamples.sessionOfAlice "session-2") Hrun Hs)))).
Defined.

Lemma deleteSession_undoes_createSession_witness :
  Caws.runCalls Samples.calls (Caws.newProvider Samples.cawsStorage) =
    (MoreSamples.afterCalls, MoreSamples.createdByCalls) /\
  Caws.createSession Samples.verifier MoreSamples.afterCalls Samples.alice =
    (Some (MoreSamples.sessionOfAlice "session-3"),
     (Caws.createSession Samples.verifier MoreSamples.afterCalls Samples.alice).2) /\
  Caws.sessions
    (Caws.deleteSession
       (Caws.createSession Samples.verifier MoreSamples.afterCalls Samples.alice).2
       (MoreSamples.sessionOfAlice "session-3")) =
  Caws.sessions MoreSamples.afterCalls.
Proof.
  assert (Hrun : Caws.runCalls Samples.calls (Caws.newProvider Samples.cawsStorage) =
                 (MoreSamples.afterCalls, MoreSamples.createdByCalls))
    by (vm_compute; reflexivity).
  assert (Hcreate : Caws.createSession Samples.verifier MoreSamples.afterCalls Samples.alice =
            (Some (MoreSamples.sessionOfAlice "session-3"),
             (Caws.createSession Samples.verifier MoreSamples.afterCalls Samples.alice).2))
    by (vm_compute; reflexivity).
  split; [exact Hrun|]. split; [exact Hcreate|].
  exact (proj1 (deleteSession_undoes_createSession
    Samples.cawsStorage Samples.calls MoreSamples.afterCalls MoreSamples.createdByCalls
    Samples.verifier Samples.alice (MoreSamples.sessionOfAlice "session-3")
    (Caws.createSession Samples.verifier MoreSamples.afterCalls Samples.alice).2
    Hrun Hcreate)).
Defined.

Lemma deleteSession_unknown_is_noop_witness :
  Caws.sessions MoreSamples.afterCalls !! "session-1" = None /\
  Caws.deleteSession MoreSamples.afterCalls (MoreSamples.sessionOfAlice "session-1") =
    MoreSamples.afterCalls.
Proof.
  assert (Hs : Caws.sessions MoreSamples.afterCalls
                 !! Caws.id (MoreSamples.sessionOfAlice "session-1") = None)
    by (vm_compute; reflexivity).
  split; [exact Hs|].
  exact (proj1 (deleteSession_unknown_is_noop MoreSamples.afterCalls
    (MoreSamples.sessionOfAlice "session-1") Hs)).
Defined.

Lemma createSession_after_createAccount_witness :
  Caws.createAccount Samples.verifier (Caws.newProvider MoreSamples.emptyStorage)
    "cookie-of-alice" = (Some Samples.alice, MoreSamples.afterCreateAccount) /\
  exists s p2,
    Caws.createSession Samples.verifier MoreSamples.afterCreateAccount Samples.alice =
      (Some s, p2) /\
    Caws.accessDetails s = "cookie-of-alice".
Proof.
  assert (Hacct : Caws.createAccount Samples.verifier
                    (Caws.newProvider MoreSamples.emptyStorage) "cookie-of-alice" =
                  (Some Samples.alice, MoreSamples.afterCreateAccount))
    by (vm_compute; reflexivity).
  split; [exact Hacct|].
  destruct (proj1 (createSession_after_createAccount Samples.verifier
              (Caws.newProvider MoreSamples.emptyStorage)
              "cookie-of-alice" Samples.alice MoreSamples.afterCreateAccount Hacct)
              ltac:(discriminate))
    as (s & p2 & Hcreate & Hcookie & _).
  exists s, p2. split; [exact Hcreate|exact Hcookie].
Defined.

(** The user sets the storage to 32 and the compute size to [mde.large],
    leaves the time-out prompt without an answer, and saves. *)
Lemma run_saves_last_answers_witness :
  exists o c,
    Wizard.run Samples.strictNe Samples.settingsStore 1%positive Samples.edits = Some o /\
    Wizard.returned o = Wizard.Saved c /\
    exists f sf,
      Wizard.getForm (Wizard.final o) c = Some f /\
      Wizard.getStorage (Wizard.final o) (Wizard.persistentStorage f) = Some sf /\
      Wizard.instanceType f = "mde.large" /\
      Wizard.inactivityTimeoutMinutes f = 15%Z /\
      Wizard.sizeInGiB sf = 32%Z.
Proof.
  destruct (Wizard.run Samples.strictNe Samples.settingsStore 1%positive Samples.edits)
    as [o|] eqn:Hrun; [|vm_compute in Hrun; discriminate Hrun].
  assert (Hret : Wizard.returned o = Wizard.Saved 3%positive).
  { pose proof Hrun as Ho. vm_compute in Ho. injection Ho as <-. reflexivity. }
  exists o, 3%positive. split; [reflexivity|]. split; [exact Hret|].
  exact (run_saves_last_answers Z Samples.strictNe Samples.settingsStore 1%positive
           Samples.edits Samples.initForm Samples.initStorage o 3%positive
           ltac:(vm_compute; reflexivity) ltac:(vm_compute; reflexivity) Hrun Hret).
Defined.

(** Without an answer to the storage prompt the saved form, a new object,
    holds the storage object of the initial form. *)
Lemma run_saved_form_shares_storage_unless_edited_witness :
  exists o c,
    Wizard.run Samples.strictNe Samples.settingsStore 1%positive
      [Wizard.EditComputeSize (Some "mde.large"); Wizard.SaveSettings] = Some o /\
    Wizard.returned o = Wizard.Saved c /\
    c <> 1%positive /\
    exists f,
      Wizard.getForm (Wizard.final o) c = Some f /\
      Wizard.persistentStorage f = 2%positive.
Proof.
  destruct (Wizard.run Samples.strictNe Samples.settingsStore 1%positive
              [Wizard.EditComputeSize (Some "mde.large"); Wizard.SaveSettings])
    as [o|] eqn:Hrun; [|vm_compute in Hrun; discriminate Hrun].
  assert (Hret : Wizard.returned o = Wizard.Saved 3%positive).
  { pose proof Hrun as Ho. vm_compute in Ho. injection Ho as <-. reflexivity. }
  exists o, 3%positive. split; [reflexivity|]. split; [exact Hret|].
  destruct (run_saved_form_shares_storage_unless_edited Z Samples.strictNe
              Samples.settingsStore 1%positive
              [Wizard.EditComputeSize (Some "mde.large"); Wizard.SaveSettings]
              Samples.initForm Samples.initStorage o 3%positive
              ltac:(vm_compute; reflexivity) ltac:(vm_compute; reflexivity) Hrun Hret)
    as (_ & Hne & f & Hf & Hshared & _).
  split; [exact Hne|]. exists f. split; [exact Hf|exact (Hshared eq_refl)].
Defined.

(** The menu the user saves from flags the compute size and the storage
    size, not the time-out. *)
Lemma run_last_menu_flags_saved_changes_witness :
  exists o c,
    Wizard.run Samples.strictNe Samples.settingsStore 1%positive Samples.edits = Some o /\
    Wizard.returned o = Wizard.Saved c /\
    exists f sf,
      last (Wizard.menus o) =
        Some {| Wizard.diffInstanceType :=
                  negb (String.eqb "mde.medium" (Wizard.instanceType f));
                Wizard.diffInactivityTimeoutMinutes :=
                  Samples.strictNe 15 (Wizard.inactivityTimeoutMinutes f);
                Wizard.diffPersistentStorageSize :=
                  Samples.strictNe 16 (Wizard.sizeInGiB sf) |} /\
      last (Wizard.menus o) =
        Some {| Wizard.diffInstanceType := true;
                Wizard.diffInactivityTimeoutMinutes := false;
                Wizard.diffPersistentStorageSize := true |}.
Proof.
  destruct (Wizard.run Samples.strictNe Samples.settingsStore 1%positive Samples.edits)
    as [o|] eqn:Hrun; [|vm_compute in Hrun; discriminate Hrun].
  assert (Ho : Wizard.returned o = Wizard.Saved 3%positive /\
               last (Wizard.menus o) =
                 Some {| Wizard.diffInstanceType := true;
                         Wizard.diffInactivityTimeoutMinutes := false;
                         Wizard.diffPersistentStorageSize := true |}).
  { pose proof Hrun as Ho. vm_compute in Ho. injection Ho as <-. split; reflexivity. }
  destruct Ho as [Hret Hflags].
  exists o, 3%positive. split; [reflexivity|]. split; [exact Hret|].
  destruct (run_last_menu_flags_saved_changes Z Samples.strictNe Samples.settingsStore
              1%positive Samples.edits Samples.initForm Samples.initStorage o 3%positive
              ltac:(vm_compute; reflexivity) ltac:(vm_compute; reflexivity) Hrun Hret)
    as (f & sf & _ & _ & Hlast).
  exists f, sf. split; [exact Hlast|exact Hflags].
Defined.

(** Of the four open folders only [app] is offered; the version recorded is
    that of [lib], which is not offered. *)
Lemma getValidModules_returns_valid_folders_witness :
  ValidModules.result (MoreSamples.getValidModules (Some MoreSamples.workspace) None) =
    inr [{| ValidModules.label := "app"; ValidModules.description := "/ws/app" |}] /\
  ValidModules.finalJDKVersion
    (MoreSamples.getValidModules (Some MoreSamples.workspace) None) =
    Some ValidModules.JDK11 /\
  exists open,
    Some MoreSamples.workspace = Some open /\
    [{| ValidModules.label := "app"; ValidModules.description := "/ws/app" |}] =
      ValidModules.itemOf <$>
        List.filter (ValidModules.isValidModule MoreSamples.javap MoreSamples.trim "52" "55")
          open.
Proof.
  assert (Hres : ValidModules.result
                   (MoreSamples.getValidModules (Some MoreSamples.workspace) None) =
                 inr [{| ValidModules.label := "app"; ValidModules.description := "/ws/app" |}])
    by (vm_compute; reflexivity).
  split; [exact Hres|]. split; [vm_compute; reflexivity|].
  destruct (getValidModules_returns_valid_folders MoreSamples.javap MoreSamples.trim
              "52" "55" "No supported Java projects found" "No pom.xml found"
              (Some MoreSamples.workspace) None
              [{| ValidModules.label := "app"; ValidModules.description := "/ws/app" |}]
              Hres)
    as (open & Hopen & Hmodules & _).
  exists open. split; [exact Hopen|exact Hmodules].
Defined.

(** * How the settings wizard ends *)

Section WizardEnds.
Import Wizard WizardSpec.

Variable number : Type.
Variable strictNe : number -> number -> bool.

Local Abbreviation store := (gmap loc (object number)).

Lemma menuLoop_ends choices : forall (h : store) initState curr i f si sf,
  menuState number h initState curr i f si sf ->
  exists o,
    menuLoop strictNe h initState curr choices = Some o /\
    returned o = endOf curr choices /\
    length (menus o) = menusShown choices.
Proof.
  induction choices as [|ch choices IH]; intros h initState curr i f si sf Hms;
    cbn [menuLoop endOf menusShown].
  { by eexists. }
  destruct (menuState_getters _ _ _ _ _ _ _ _ Hms) as (Hi & Hf & Hsi & Hsf).
  rewrite Hi, Hf. cbn [mbind option_bind]. unfold diff. rewrite Hsi, Hsf.
  cbn [mbind option_bind].
  destruct (editItem_answer number strictNe h initState curr ch i f si sf Hms)
    as (h' & f1 & sf1 & Hedit & Hms' & _).
  destruct (IH h' initState curr i f1 si sf1 Hms') as (o1 & Ho1 & Hret & Hlen).
  destruct ch as [| |r|r|r]; try (by eexists).
  all: rewrite Hedit; cbn [mbind option_bind]; rewrite Ho1; cbn [mbind option_bind].
  all: eexists; split; [done|]; cbn; by rewrite Hret, Hlen.
Qed.

(** X24: [run] ends at the first menu where the user picks 'Save Settings'
    or leaves: it returns the edited copy in the first case and [undefined]
    in the second, whatever was edited before, and shows one menu per
    choice up to that one. *)
Theorem run_ends_at_first_save_or_leave (h : store) initState choices i s :
  getForm h initState = Some i ->
  getStorage h (persistentStorage i) = Some s ->
  exists o,
    run strictNe h initState choices = Some o /\
    returned o = endOf (fresh (dom h)) choices /\
    length (menus o) = menusShown choices.
Proof.
  intros Hi Hs. unfold run. rewrite Hi. cbn [mbind option_bind alloc].
  pose proof (fresh_lookup number h) as Hfresh. set (curr := fresh (dom h)) in *.
  apply getForm_Some in Hi. apply getStorage_Some in Hs.
  assert (initState <> curr) by congruence.
  assert (persistentStorage i <> curr) by congruence.
  apply (menuLoop_ends choices (<[curr := Form i]> h) initState curr i i s s).
  split; by rewrite ?lookup_insert_eq, ?lookup_insert_ne.
Qed.

End WizardEnds.

(** The user changes the storage size and then leaves: nothing is
    returned. *)
Lemma run_ends_at_first_save_or_leave_witness :
  Wizard.getForm Samples.settingsStore 1%positive = Some Samples.initForm /\
  Wizard.getStorage Samples.settingsStore 2%positive = Some Samples.initStorage /\
  exists o,
    Wizard.run Samples.strictNe Samples.settingsStore 1%positive
      [Wizard.EditPersistentStorageSize (Some 32%Z); Wizard.Leave; Wizard.SaveSettings] =
      Some o /\
    Wizard.returned o = Wizard.Undefined /\
    length (Wizard.menus o) = 2.
Proof.
  assert (Hi : Wizard.getForm Samples.settingsStore 1%positive = Some Samples.initForm)
    by (vm_compute; reflexivity).
  assert (Hs : Wizard.getStorage Samples.settingsStore
                 (Wizard.persistentStorage Samples.initForm) = Some Samples.initStorage)
    by (vm_compute; reflexivity).
  split; [exact Hi|]. split; [exact Hs|].
  exact (run_ends_at_first_save_or_leave Z Samples.strictNe Samples.settingsStore 1%positive
    [Wizard.EditPersistentStorageSize (Some 32%Z); Wizard.Leave; Wizard.SaveSettings]
    Samples.initForm Samples.initStorage Hi Hs).
Defined.
